(** * InventoryService: the inventory ledger and its reservation endpoints

    A shallow embedding of [Inventory/models.py] and [Inventory/views.py]
    (the [Inventory] model and the [InventoryViewSet] actions [update_stock],
    [reserve], [release], [commit] and [availability]), followed by the
    properties of the ledger that hold, or fail, on that code.

    Conventions of the embedding.
    - Python integers are [Z]; the columns of the table are [Z] as well.
      A save is modelled as the write it performs when the database stores
      the row; a database refuses integers outside the range of its
      column, and where a statement depends on a save of new values
      succeeding it assumes they are in the range every backend stores
      ([int_column]).
    - A request body ([request.data]) is a dictionary from keys to JSON
      values; query parameters are a dictionary from keys to strings.
    - A view is a program over three database operations (two queries and
      [save]); running it sequentially gives the response or the exception,
      the table afterwards and the list of database operations performed.
      Running several views one database operation at a time gives the
      interleavings of concurrent requests.
    - [updated_at] and the ordering by it are not modelled: every query of
      these views selects by primary key or by the unique pair
      (product_id, shop_id).  Every save refreshes [updated_at]; equality
      of rows and tables is equality of all other columns.
    - The permission classes run before the body of a view and are not
      modelled; views are described from their first line on. *)

From Stdlib Require Import ZArith List String Ascii Bool Lia.
From Stdlib Require Import Floats.SpecFloat DecimalString.
From stdpp Require Import gmap strings.
Import ListNotations.

Local Open Scope string_scope.
Local Open Scope Z_scope.
#[local] Set Warnings "-register-all".

(** ** Python values that reach the views *)

(** A decoded JSON value.  A JSON number with a fraction or an exponent is a
    Python float, kept here as its sign, mantissa and binary exponent. *)
Inductive json : Type :=
| JNull
| JBool (b : bool)
| JInt (z : Z)
| JFloat (f : spec_float)
| JStr (s : string)
| JArr (l : list json)
| JObj (l : list (string * json)).

(** The exceptions the views can raise: the two REST framework ones they
    raise themselves, [Http404] of [get_object_or_404], and the built-in
    ones of [int()]. *)
Inductive PyExc : Type :=
| ValidationError (field detail : string)
| NotFound (detail : string)
| Http404
| ValueError
| TypeError
| OverflowError.

(** Python truth value ([bool(v)]). *)
Definition truthy (v : json) : bool :=
  match v with
  | JNull => false
  | JBool b => b
  | JInt z => negb (z =? 0)
  | JFloat (S754_zero _) => false
  | JFloat _ => true
  | JStr s => negb (String.eqb s "")
  | JArr l => match l with [] => false | _ => true end
  | JObj l => match l with [] => false | _ => true end
  end.

(** [a or b]. *)
Definition py_or (a b : json) : json := if truthy a then a else b.

(** [int(x)] of a float: truncation toward zero. *)
Definition trunc_float (f : spec_float) : PyExc + Z :=
  match f with
  | S754_zero _ => inr 0
  | S754_infinity _ => inl OverflowError
  | S754_nan => inl ValueError
  | S754_finite s m e =>
      let v := Z.shiftl (Z.pos m) e in inr (if s then - v else v)
  end.

(** [int(s)] of a string, base ten, for ASCII text: surrounding white space
    (tab, line feed, vertical tab, form feed, carriage return, space) is
    dropped, one sign is allowed, single underscores may separate digits,
    and more than 4300 digits are refused ([sys.int_max_str_digits]).
    Strings are ASCII text: digits and spaces outside ASCII are not
    modelled. *)
Definition is_space (c : ascii) : bool :=
  let n := Z.of_nat (nat_of_ascii c) in
  ((9 <=? n) && (n <=? 13)) || (n =? 32).

Definition digit_of (c : ascii) : option Z :=
  let n := Z.of_nat (nat_of_ascii c) in
  if (48 <=? n) && (n <=? 57) then Some (n - 48) else None.

Fixpoint lstrip (l : list ascii) : list ascii :=
  match l with
  | c :: l' => if is_space c then lstrip l' else l
  | [] => []
  end.

Definition strip (l : list ascii) : list ascii :=
  rev (lstrip (rev (lstrip l))).

Fixpoint digits (l : list ascii) (acc : Z) (after_digit : bool) : option Z :=
  match l with
  | [] => if after_digit then Some acc else None
  | c :: l' =>
      match digit_of c with
      | Some d => digits l' (10 * acc + d) true
      | None =>
          if after_digit && Ascii.eqb c "_"%char then digits l' acc false
          else None
      end
  end.

Definition is_digit (c : ascii) : bool :=
  match digit_of c with
  | Some _ => true
  | None => false
  end.

Definition int_max_str_digits : Z := 4300.

Definition limited_digits (l : list ascii) : option Z :=
  if Z.of_nat (length (List.filter is_digit l)) <=? int_max_str_digits
  then digits l 0 false
  else None.

Definition int_of_str (s : string) : option Z :=
  match strip (list_ascii_of_string s) with
  | c :: l =>
      if Ascii.eqb c "-"%char then option_map Z.opp (limited_digits l)
      else if Ascii.eqb c "+"%char then limited_digits l
      else limited_digits (c :: l)
  | [] => None
  end.

(** [int(v)]. *)
Definition py_int (v : json) : PyExc + Z :=
  match v with
  | JNull => inl TypeError
  | JBool b => inr (if b then 1 else 0)
  | JInt z => inr z
  | JFloat f => trunc_float f
  | JStr s => match int_of_str s with Some z => inr z | None => inl ValueError end
  | JArr _ => inl TypeError
  | JObj _ => inl TypeError
  end.

(** ** models.py *)

(** A row of the [Inventory] table; [pk] is the automatic primary key
    ([id]). *)
Record Inventory : Type := mkInventory {
  pk : Z;
  product_id : Z;
  shop_id : Z;
  stock : Z;
  reserved : Z;
  threshold : Z;
  meta : json
}.

(** [Inventory.available] *)
Definition available (self : Inventory) : Z :=
  Z.max (stock self - reserved self) 0.

Definition set_stock (inv : Inventory) (v : Z) : Inventory :=
  mkInventory (pk inv) (product_id inv) (shop_id inv) v (reserved inv)
              (threshold inv) (meta inv).

Definition set_reserved (inv : Inventory) (v : Z) : Inventory :=
  mkInventory (pk inv) (product_id inv) (shop_id inv) (stock inv) v
              (threshold inv) (meta inv).

Definition set_threshold (inv : Inventory) (v : Z) : Inventory :=
  mkInventory (pk inv) (product_id inv) (shop_id inv) (stock inv)
              (reserved inv) v (meta inv).

Definition set_meta (inv : Inventory) (v : json) : Inventory :=
  mkInventory (pk inv) (product_id inv) (shop_id inv) (stock inv)
              (reserved inv) (threshold inv) v.

(** ** The table and the operations of the ORM the views use *)

Definition Db : Type := list Inventory.

(** [Inventory.objects.filter(product_id=p, shop_id=s).first()] *)
Definition first_match (p s : Z) (db : Db) : option Inventory :=
  List.find (fun r => (product_id r =? p) && (shop_id r =? s)) db.

(** [Inventory.objects.get(pk=k)], [None] for [DoesNotExist]. *)
Definition get_pk (k : Z) (db : Db) : option Inventory :=
  List.find (fun r => pk r =? k) db.

(** [inv.save()]: every column of the row with the primary key of [inv] is
    overwritten with the fields of [inv]; the row is inserted when no row
    has that key. *)
Definition save_row (inv : Inventory) (db : Db) : Db :=
  if existsb (fun r => pk r =? pk inv) db
  then map (fun r => if pk r =? pk inv then inv else r) db
  else (db ++ [inv])%list.

Inductive DbEvent : Type :=
| EvFilterFirst (p s : Z)
| EvGet (k : Z)
| EvSave (inv : Inventory).

(** ** Views as programs over the database *)

Inductive Prog (A : Type) : Type :=
| Ret (a : A)
| Raise (e : PyExc)
| FilterFirst (p s : Z) (k : option Inventory -> Prog A)
| GetPk (key : Z) (k : option Inventory -> Prog A)
| Save (inv : Inventory) (k : Prog A).

Arguments Ret {A} a.
Arguments Raise {A} e.
Arguments FilterFirst {A} p s k.
Arguments GetPk {A} key k.
Arguments Save {A} inv k.

Fixpoint bind {A B : Type} (m : Prog A) (f : A -> Prog B) : Prog B :=
  match m with
  | Ret a => f a
  | Raise e => Raise e
  | FilterFirst p s k => FilterFirst p s (fun r => bind (k r) f)
  | GetPk key k => GetPk key (fun r => bind (k r) f)
  | Save inv k => Save inv (bind k f)
  end.

Notation "'let*' x ':=' c 'in' k" := (bind c (fun x => k))
  (at level 10, x name, c at level 100, k at level 200).

(** A Python expression that returns or raises, inside a view. *)
Definition lift {A : Type} (r : PyExc + A) : Prog A :=
  match r with
  | inl e => Raise e
  | inr a => Ret a
  end.

(** Sequential execution: the result, the table afterwards, and the database
    operations performed, in order. *)
Fixpoint exec {A : Type} (m : Prog A) (db : Db)
  : (PyExc + A) * Db * list DbEvent :=
  match m with
  | Ret a => (inr a, db, [])
  | Raise e => (inl e, db, [])
  | FilterFirst p s k =>
      let '(r, db', t) := exec (k (first_match p s db)) db in
      (r, db', EvFilterFirst p s :: t)
  | GetPk key k =>
      let '(r, db', t) := exec (k (get_pk key db)) db in
      (r, db', EvGet key :: t)
  | Save inv k =>
      let '(r, db', t) := exec k (save_row inv db) in
      (r, db', EvSave inv :: t)
  end.

Definition result_of {A : Type} (o : (PyExc + A) * Db * list DbEvent) : PyExc + A :=
  fst (fst o).
Definition db_of {A : Type} (o : (PyExc + A) * Db * list DbEvent) : Db :=
  snd (fst o).
Definition trace_of {A : Type} (o : (PyExc + A) * Db * list DbEvent) : list DbEvent :=
  snd o.

(** One database operation of a running view; a finished view stays as it
    is. *)
Definition step {A : Type} (m : Prog A) (db : Db) : Prog A * Db :=
  match m with
  | Ret a => (Ret a, db)
  | Raise e => (Raise e, db)
  | FilterFirst p s k => (k (first_match p s db), db)
  | GetPk key k => (k (get_pk key db), db)
  | Save inv k => (k, save_row inv db)
  end.

(** ** views.py *)

Record Request : Type := mkRequest {
  data : gmap string json;
  query_params : gmap string string
}.

Inductive Body : Type :=
| InventoryData (inv : Inventory) (available_field : Z)
| Detail (msg : string)
| Availability (available_field stock_field reserved_field : Z).

Record Response : Type := mkResponse {
  body : Body;
  status : Z
}.

(** [d.get(k)] and [d.get(k, v)] *)
Definition dict_get (d : gmap string json) (k : string) : json :=
  default JNull (d !! k).

Definition dict_get_default (d : gmap string json) (k : string) (v : json) : json :=
  default v (d !! k).

Definition params_get (d : gmap string string) (k : string) : json :=
  match d !! k with
  | Some s => JStr s
  | None => JNull
  end.

(** [InventorySerializer(inv).data] *)
Definition serialize (inv : Inventory) : Body :=
  InventoryData inv (available inv).

(** The value given to an integer column in a query goes through [int()]
    ([IntegerField.get_prep_value]), which re-raises its [ValueError] or
    [TypeError]. *)
Definition get_prep_value (v : json) : PyExc + Z := py_int v.

(** [Inventory.objects.filter(product_id=product_id, shop_id=shop_id).first()] *)
Definition objects_filter_first (product_id shop_id : json)
  : Prog (option Inventory) :=
  let* p := lift (get_prep_value product_id) in
  let* s := lift (get_prep_value shop_id) in
  FilterFirst p s Ret.

(** [get_object_or_404(Inventory, pk=pk)] *)
Definition get_object_or_404 (key : string) : Prog Inventory :=
  let* k := lift (get_prep_value (JStr key)) in
  GetPk k (fun r => match r with
                    | Some inv => Ret inv
                    | None => Raise Http404
                    end).

(** [inv.save()] *)
Definition save (inv : Inventory) : Prog unit := Save inv (Ret tt).

(** [InventoryViewSet.update_stock] *)
Definition update_stock (request : Request) (key : string) : Prog Response :=
  let* inv := get_object_or_404 key in
  let* inv := match data request !! "stock" with
         | Some v =>
             match py_int v with
             | inr z => Ret (set_stock inv z)
             | inl ValueError | inl TypeError =>
                 Raise (ValidationError "stock" "invalid integer")
             | inl e => Raise e
             end
         | None => Ret inv
         end in
  let* inv := match data request !! "threshold" with
         | Some v =>
             match py_int v with
             | inr z => Ret (set_threshold inv z)
             | inl ValueError | inl TypeError =>
                 Raise (ValidationError "threshold" "invalid integer")
             | inl e => Raise e
             end
         | None => Ret inv
         end in
  let inv := match data request !! "meta" with
             | Some _ => set_meta inv (py_or (dict_get (data request) "meta") (JObj []))
             | None => inv
             end in
  let* _ := save inv in
  Ret (mkResponse (serialize inv) 200).

(** [InventoryViewSet.reserve] *)
Definition reserve (request : Request) : Prog Response :=
  let product_id := dict_get (data request) "product_id" in
  let shop_id := dict_get (data request) "shop_id" in
  let* qty := lift (py_int (py_or (dict_get_default (data request) "quantity" (JInt 0)) (JInt 0))) in
  if negb (truthy product_id) || negb (truthy shop_id) || (qty <=? 0) then
    Raise (ValidationError "detail" "product_id, shop_id and positive quantity required")
  else
    let* inv := objects_filter_first product_id shop_id in
    match inv with
    | None => Raise (NotFound "Inventory record not found")
    | Some inv =>
        if available inv <? qty then
          Ret (mkResponse (Detail "Not enough available stock") 400)
        else
          let inv := set_reserved inv (reserved inv + qty) in
          let* _ := save inv in
          Ret (mkResponse (serialize inv) 200)
    end.

(** [InventoryViewSet.release] *)
Definition release (request : Request) : Prog Response :=
  let product_id := dict_get (data request) "product_id" in
  let shop_id := dict_get (data request) "shop_id" in
  let* qty := lift (py_int (py_or (dict_get_default (data request) "quantity" (JInt 0)) (JInt 0))) in
  if negb (truthy product_id) || negb (truthy shop_id) || (qty <=? 0) then
    Raise (ValidationError "detail" "product_id, shop_id and positive quantity required")
  else
    let* inv := objects_filter_first product_id shop_id in
    match inv with
    | None => Raise (NotFound "Inventory record not found")
    | Some inv =>
        let inv := set_reserved inv (Z.max (reserved inv - qty) 0) in
        let* _ := save inv in
        Ret (mkResponse (serialize inv) 200)
    end.

(** [InventoryViewSet.commit] *)
Definition commit (request : Request) : Prog Response :=
  let product_id := dict_get (data request) "product_id" in
  let shop_id := dict_get (data request) "shop_id" in
  let* qty := lift (py_int (py_or (dict_get_default (data request) "quantity" (JInt 0)) (JInt 0))) in
  if negb (truthy product_id) || negb (truthy shop_id) || (qty <=? 0) then
    Raise (ValidationError "detail" "product_id, shop_id and positive quantity required")
  else
    let* inv := objects_filter_first product_id shop_id in
    match inv with
    | None => Raise (NotFound "Inventory record not found")
    | Some inv =>
        if reserved inv <? qty then
          Ret (mkResponse (Detail "Not enough reserved stock") 400)
        else
          let inv := set_reserved inv (reserved inv - qty) in
          let inv := set_stock inv (Z.max (stock inv - qty) 0) in
          let* _ := save inv in
          Ret (mkResponse (serialize inv) 200)
    end.

(** [InventoryViewSet.availability] *)
Definition availability (request : Request) : Prog Response :=
  let product_id := params_get (query_params request) "product_id" in
  let shop_id := params_get (query_params request) "shop_id" in
  if negb (truthy product_id) || negb (truthy shop_id) then
    Raise (ValidationError "detail" "product_id and shop_id query params required")
  else
    let* inv := objects_filter_first product_id shop_id in
    match inv with
    | None => Ret (mkResponse (Availability 0 0 0) 200)
    | Some inv =>
        Ret (mkResponse (Availability (available inv) (stock inv) (reserved inv)) 200)
    end.

(** ** The three reservation endpoints, by name *)

Inductive Op : Type := OpReserve | OpRelease | OpCommit.

Definition handler (op : Op) : Request -> Prog Response :=
  match op with
  | OpReserve => reserve
  | OpRelease => release
  | OpCommit => commit
  end.

(** The quantity as the three views compute it on their third line. *)
Definition quantity_arg (request : Request) : PyExc + Z :=
  py_int (py_or (dict_get_default (data request) "quantity" (JInt 0)) (JInt 0)).

(** A request that passes the argument check of the three views and whose
    identifiers select the pair [(p, s)], with quantity [q]. *)
Definition valid_args (request : Request) (p s q : Z) : Prop :=
  quantity_arg request = inr q /\ 0 < q /\
  truthy (dict_get (data request) "product_id") = true /\
  truthy (dict_get (data request) "shop_id") = true /\
  get_prep_value (dict_get (data request) "product_id") = inr p /\
  get_prep_value (dict_get (data request) "shop_id") = inr s.

(** The body the docstrings of the views give:
    [{"shop_id": s, "product_id": p, "quantity": q}]. *)
Definition order_body (p s q : Z) : Request :=
  mkRequest (<["shop_id" := JInt s]> (<["product_id" := JInt p]>
              (<["quantity" := JInt q]> ∅))) ∅.

(** The ledger invariant of a row. *)
Definition ledger_ok (r : Inventory) : Prop :=
  0 <= reserved r /\ reserved r <= stock r /\ 0 <= stock r.

(** Primary keys are unique in the table. *)
Definition pk_unique (db : Db) : Prop := NoDup (map pk db).

(** Serving a list of requests one after the other. *)
Fixpoint run_calls (calls : list (Op * Request)) (db : Db) : Db :=
  match calls with
  | [] => db
  | (op, request) :: rest => run_calls rest (db_of (exec (handler op request) db))
  end.

Fixpoint run_seq (ms : list (Prog Response)) (db : Db)
  : list (PyExc + Response) * Db :=
  match ms with
  | [] => ([], db)
  | m :: rest =>
      let o := exec m db in
      let '(rs, db') := run_seq rest (db_of o) in
      (result_of o :: rs, db')
  end.

(** Serving requests concurrently: the schedule names, at each turn, the
    request that performs its next database operation. *)
Fixpoint run_schedule (sched : list nat) (pool : list (Prog Response)) (db : Db)
  : list (Prog Response) * Db :=
  match sched with
  | [] => (pool, db)
  | i :: rest =>
      match pool !! i with
      | Some m =>
          let '(m', db') := step m db in
          run_schedule rest (<[i := m']> pool) db'
      | None => run_schedule rest pool db
      end
  end.

Definition succeeded (r : PyExc + Response) : bool :=
  match r with
  | inr resp => status resp =? 200
  | inl _ => false
  end.


(** ** Predicates used in the statements *)

(** A row and its later state: same identity, and the invariant, if it held,
    still holds. *)
Definition row_kept (r r' : Inventory) : Prop :=
  pk r' = pk r /\ product_id r' = product_id r /\ shop_id r' = shop_id r /\
  (ledger_ok r -> ledger_ok r').

(** A view writes only rows that satisfy [P], as long as the rows it reads
    satisfy [P]. *)
Fixpoint writes_keep (P : Inventory -> Prop) {A : Type} (m : Prog A) : Prop :=
  match m with
  | Ret _ => True
  | Raise _ => True
  | FilterFirst _ _ k =>
      forall r, (forall inv, r = Some inv -> P inv) -> writes_keep P (k r)
  | GetPk _ k =>
      forall r, (forall inv, r = Some inv -> P inv) -> writes_keep P (k r)
  | Save inv k => P inv /\ writes_keep P k
  end.


(** ** Sample data *)

(** A table with one row, for product 10 at shop 5. *)
Definition shelf_row (st r : Z) : Inventory := mkInventory 1 10 5 st r 0 (JObj []).
Definition shelf (st r : Z) : Db := [shelf_row st r].

(** The float 2.5 (5 times 2 to the power -1). *)
Definition two_and_a_half : spec_float := S754_finite false 5 (-1).

(** A request with a JSON body of the three keys. *)
Definition body_with (p s q : json) : Request :=
  mkRequest (<["shop_id" := s]> (<["product_id" := p]> (<["quantity" := q]> ∅))) ∅.

(** A request with the query string [?product_id=p&shop_id=s]. *)
Definition query_of (p s : string) : Request :=
  mkRequest ∅ (<["shop_id" := s]> (<["product_id" := p]> ∅)).

(** The body [{"stock": v}] of an administrative edit. *)
Definition stock_edit (v : json) : Request :=
  mkRequest (<["stock" := v]> ∅) ∅.

(** ** views.py: the list endpoint and the permissions of the actions *)

(** [str(n)] of an integer. *)
Definition py_str (n : Z) : string := NilZero.string_of_int (Z.to_int n).

Definition for_shop (s : Z) (r : Inventory) : bool := shop_id r =? s.
Definition for_product (p : Z) (r : Inventory) : bool := product_id r =? p.

(** [InventoryViewSet.get_queryset], as the rows the query set selects (their
    order, by [updated_at], is not modelled).  The value of a filter goes
    through [get_prep_value] when [filter] is called. *)
Definition get_queryset (request : Request) (db : Db) : PyExc + list Inventory :=
  let qs := db in
  let shop_id := params_get (query_params request) "shop_id" in
  let product_id := params_get (query_params request) "product_id" in
  match (if truthy shop_id then
           match get_prep_value shop_id with
           | inr s => inr (List.filter (for_shop s) qs)
           | inl e => inl e
           end
         else inr qs) with
  | inl e => inl e
  | inr qs =>
      if truthy product_id then
        match get_prep_value product_id with
        | inr p => inr (List.filter (for_product p) qs)
        | inl e => inl e
        end
      else inr qs
  end.

(** What the permission classes look at in a request: the HTTP method,
    [request.user] ([None] when the attribute is missing) and [request.auth].
    [shop_ids] is [JNull] when the user has no such attribute. *)
Record User : Type := mkUser {
  user_id : json;
  role : string;
  is_authenticated : bool;
  shop_ids : json
}.

Record Caller : Type := mkCaller {
  method : string;
  user : option User;
  auth : option string
}.

(** [permissions.SAFE_METHODS] *)
Definition SAFE_METHODS : list string := ["GET"; "HEAD"; "OPTIONS"].

Definition is_safe (m : string) : bool := existsb (String.eqb m) SAFE_METHODS.

(** [request.user and request.user.is_authenticated] *)
Definition authenticated (request : Caller) : bool :=
  match user request with
  | Some u => is_authenticated u
  | None => false
  end.

(** [IsShopOwnerOrReadOnly.has_permission] *)
Definition has_permission (request : Caller) : bool :=
  if is_safe (method request) then true
  else
    match user request with
    | None => false
    | Some u =>
        if negb (is_authenticated u) then false
        else String.eqb (role u) "shop_owner"
    end.

(** The permission classes of the view set; the first two are those of the
    REST framework. *)
Inductive Permission : Type :=
| IsAuthenticated
| IsAuthenticatedOrReadOnly
| IsShopOwnerOrReadOnly.

Definition permission_granted (perm : Permission) (request : Caller) : bool :=
  match perm with
  | IsAuthenticated => authenticated request
  | IsAuthenticatedOrReadOnly => is_safe (method request) || authenticated request
  | IsShopOwnerOrReadOnly => has_permission request
  end.

(** [InventoryViewSet.get_permissions]; [update_stock] is declared with its
    own [permission_classes], every other action has those of the class. *)
Definition get_permissions (action : string) : list Permission :=
  if existsb (String.eqb action) ["reserve"; "release"; "commit"] then
    [IsAuthenticated]
  else if String.eqb action "update_stock" then [IsShopOwnerOrReadOnly]
  else [IsAuthenticatedOrReadOnly; IsShopOwnerOrReadOnly].

(** The check the framework runs before the body of an action: every
    permission of the action must grant the request. *)
Definition check_permissions (action : string) (request : Caller) : bool :=
  forallb (fun perm => permission_granted perm request) (get_permissions action).

(** ** permissions.py *)

(** The answer of another service to a GET: a status code with the decoded
    JSON body, or a failure of the request ([requests.RequestException]). *)
Inductive HttpReply : Type :=
| HttpStatus (code : Z) (payload : json)
| RequestException.

Inductive PermExc : Type :=
| PermissionDenied (detail : string)
| Builtin (e : PyExc)
| AttributeError.

(** [_fetch_shop]: the shop service is asked for the shop, with the bearer
    token when there is a (non-empty) one. *)
Definition _fetch_shop (service : Z -> option string -> HttpReply)
  (shop : Z) (token : option string) : PermExc + option json :=
  let headers := match token with
                 | Some t => if String.eqb t "" then None else Some t
                 | None => None
                 end in
  match service shop headers with
  | HttpStatus code payload =>
      if code =? 200 then inr (Some payload)
      else if code =? 404 then inr None
      else inl (PermissionDenied "Could not fetch shop from ShopService")
  | RequestException => inl (PermissionDenied "ShopService unavailable")
  end.

(** [[int(s) for s in v]] for an iterable [v]: a list gives its items, a
    string its characters, a dictionary its keys; the first [int()] that
    raises ends the loop. *)
Fixpoint ints_of (l : list json) : PyExc + list Z :=
  match l with
  | [] => inr []
  | v :: l' =>
      match py_int v with
      | inl e => inl e
      | inr z =>
          match ints_of l' with
          | inl e => inl e
          | inr zs => inr (z :: zs)
          end
      end
  end.

Definition iterate (v : json) : PyExc + list json :=
  match v with
  | JArr l => inr l
  | JStr s => inr (map (fun c => JStr (String c "")) (list_ascii_of_string s))
  | JObj l => inr (map (fun kv => JStr (fst kv)) l)
  | _ => inl TypeError
  end.

(** [d.get(k)] of a decoded JSON object. *)
Definition obj_get (l : list (string * json)) (k : string) : json :=
  match List.find (fun kv => String.eqb (fst kv) k) l with
  | Some kv => snd kv
  | None => JNull
  end.

(** [IsShopOwnerOrReadOnly.has_object_permission] *)
Definition has_object_permission (service : Z -> option string -> HttpReply)
  (request : Caller) (obj : Inventory) : PermExc + bool :=
  if is_safe (method request) then inr true
  else
    match user request with
    | None => inr false
    | Some u =>
        if negb (is_authenticated u) then inr false
        else if negb (String.eqb (role u) "shop_owner") then inr false
        else
          let token := auth request in
          let token_shop_ids := py_or (shop_ids u) JNull in
          if truthy token_shop_ids then
            let token_shop_ids :=
              match token_shop_ids with
              | JInt _ | JBool _ => inr [token_shop_ids]
              | _ => iterate token_shop_ids
              end in
            match token_shop_ids with
            | inl e => inl (Builtin e)
            | inr l =>
                match ints_of l with
                | inl e => inl (Builtin e)
                | inr zs => inr (existsb (Z.eqb (shop_id obj)) zs)
                end
            end
          else
            match _fetch_shop service (shop_id obj) token with
            | inl e => inl e
            | inr shop =>
                match shop with
                | None => inr false
                | Some shop =>
                    if negb (truthy shop) then inr false
                    else
                      match shop with
                      | JObj fields =>
                          let owner_id := obj_get fields "owner_id" in
                          match py_int owner_id with
                          | inl e => inl (Builtin e)
                          | inr o =>
                              match py_int (user_id u) with
                              | inl e => inl (Builtin e)
                              | inr i => inr (o =? i)
                              end
                          end
                      | _ => inl AttributeError
                      end
                end
            end
    end.

(** ** serializers.py *)

(** [InventorySerializer.validate_product_id]; [validate] is the setting
    [INVENTORY_VALIDATE_PRODUCT] and [service] the product service. *)
Definition validate_product_id (validate : bool) (service : Z -> HttpReply)
  (value : Z) : PyExc + Z :=
  if negb validate then inr value
  else
    match service value with
    | HttpStatus code _ =>
        if negb (code =? 200) then
          inl (ValidationError "product_id"
                 ("Product " ++ py_str value ++ " not found in ProductService"))
        else inr value
    | RequestException =>
        inl (ValidationError "product_id"
               "Could not validate product with ProductService (unavailable)")
    end.

(** The data a serializer hands to [create]: the two identifiers, and the
    optional fields that were sent. *)
Record ValidatedData : Type := mkValidatedData {
  vd_product_id : Z;
  vd_shop_id : Z;
  vd_stock : option Z;
  vd_threshold : option Z;
  vd_meta : option json
}.

(** The key the database gives to an inserted row: one that no row has. *)
Definition next_pk (db : Db) : Z := 1 + fold_right Z.max 0 (map pk db).

Inductive Upsert : Type :=
| Upserted (obj : Inventory) (created : bool) (db' : Db)
| MultipleObjectsReturned.

(** [Inventory.objects.update_or_create(product_id=p, shop_id=s,
    defaults={stock, threshold, meta})]: the row of the pair is updated with
    the defaults and saved; without such a row one is inserted, with the
    default 0 of [reserved]. *)
Definition update_or_create (p s : Z) (d_stock d_threshold : Z) (d_meta : json)
  (db : Db) : Upsert :=
  match List.filter (fun r => for_product p r && for_shop s r) db with
  | [] =>
      let obj := mkInventory (next_pk db) p s d_stock 0 d_threshold d_meta in
      Upserted obj true (db ++ [obj])%list
  | [row] =>
      let obj := set_meta (set_threshold (set_stock row d_stock) d_threshold) d_meta in
      Upserted obj false (save_row obj db)
  | _ => MultipleObjectsReturned
  end.

(** [InventorySerializer.create] *)
Definition create (validated_data : ValidatedData) (db : Db) : Upsert :=
  update_or_create (vd_product_id validated_data) (vd_shop_id validated_data)
    (default 0 (vd_stock validated_data))
    (default 0 (vd_threshold validated_data))
    (default (JObj []) (vd_meta validated_data))
    db.

(** The pair [(product_id, shop_id)] is unique in the table
    ([unique_together]). *)
Definition unique_together (db : Db) : Prop :=
  NoDup (map (fun r => (product_id r, shop_id r)) db).

(** A database operation that writes. *)
Definition is_save (ev : DbEvent) : bool :=
  match ev with
  | EvSave _ => true
  | _ => false
  end.

(** A filter parameter of the list endpoint admits the value [x]: it is
    absent or empty, or [int()] reads it as [x]. *)
Definition param_admits (v : json) (x : Z) : Prop :=
  truthy v = false \/ get_prep_value v = inr x.




(** The integers an [IntegerField] column stores on every database backend
    (32 bits, signed). *)
Definition int_column (z : Z) : Prop := -2147483648 <= z <= 2147483647.

(** * Properties *)

(** ** [int()] on the values a request can carry *)

Example int_of_str_examples :
  int_of_str "42" = Some 42 /\ int_of_str " -12 " = Some (-12) /\
  int_of_str "+007" = Some 7 /\ int_of_str "1_000" = Some 1000 /\
  int_of_str "" = None /\ int_of_str "abc" = None /\ int_of_str "2.5" = None /\
  int_of_str "1__0" = None /\ int_of_str "_1" = None /\ int_of_str "1_" = None /\
  int_of_str "- 5" = None.
Proof. repeat split; vm_compute; reflexivity. Qed.

Example py_int_examples :
  py_int (JFloat two_and_a_half) = inr 2 /\
  py_int (JFloat (S754_finite true 5 (-1))) = inr (-2) /\
  py_int (JFloat (S754_finite false 1 (-1))) = inr 0 /\
  py_int (JBool true) = inr 1 /\
  py_int JNull = inl TypeError /\
  py_int (JStr "abc") = inl ValueError.
Proof. repeat split; vm_compute; reflexivity. Qed.

(** ** The shape of the views on checked arguments *)

Ltac use_args H :=
  destruct H as (Hq & Hpos & Htp & Hts & Hp & Hs);
  unfold quantity_arg in Hq.

Ltac enter_view :=
  match goal with
  | Hq : py_int _ = inr ?q, Hpos : 0 < ?q,
    Htp : truthy _ = true, Hts : truthy _ = true,
    Hp : get_prep_value _ = inr _, Hs : get_prep_value _ = inr _ |- _ =>
      cbv beta delta [reserve release commit objects_filter_first] zeta;
      rewrite Hq; cbn [lift bind];
      rewrite Htp, Hts; cbn [negb orb];
      replace (q <=? 0) with false by (symmetry; apply Z.leb_gt; exact Hpos);
      rewrite Hp, Hs; cbn [lift bind]
  end.

Lemma reserve_checked request p s q :
  valid_args request p s q ->
  reserve request =
  FilterFirst p s (fun r =>
    match r with
    | None => Raise (NotFound "Inventory record not found")
    | Some inv =>
        if available inv <? q then
          Ret (mkResponse (Detail "Not enough available stock") 400)
        else
          Save (set_reserved inv (reserved inv + q))
               (Ret (mkResponse (serialize (set_reserved inv (reserved inv + q))) 200))
    end).
Proof.
  intros H. use_args H. enter_view.
  f_equal.
Qed.

Lemma release_checked request p s q :
  valid_args request p s q ->
  release request =
  FilterFirst p s (fun r =>
    match r with
    | None => Raise (NotFound "Inventory record not found")
    | Some inv =>
        Save (set_reserved inv (Z.max (reserved inv - q) 0))
             (Ret (mkResponse (serialize (set_reserved inv (Z.max (reserved inv - q) 0))) 200))
    end).
Proof.
  intros H. use_args H. enter_view.
  f_equal.
Qed.

Lemma commit_checked request p s q :
  valid_args request p s q ->
  commit request =
  FilterFirst p s (fun r =>
    match r with
    | None => Raise (NotFound "Inventory record not found")
    | Some inv =>
        if reserved inv <? q then
          Ret (mkResponse (Detail "Not enough reserved stock") 400)
        else
          Save (set_stock (set_reserved inv (reserved inv - q))
                          (Z.max (stock inv - q) 0))
               (Ret (mkResponse
                       (serialize (set_stock (set_reserved inv (reserved inv - q))
                                             (Z.max (stock inv - q) 0))) 200))
    end).
Proof.
  intros H. use_args H. enter_view.
  f_equal.
Qed.

(** The argument check, when the quantity has been read. *)
Lemma handler_rejects op request q :
  quantity_arg request = inr q ->
  truthy (dict_get (data request) "product_id") = false \/
  truthy (dict_get (data request) "shop_id") = false \/
  q <= 0 ->
  handler op request =
  Raise (ValidationError "detail" "product_id, shop_id and positive quantity required").
Proof.
  intros Hq Hbad. unfold quantity_arg in Hq.
  assert (Hc : negb (truthy (dict_get (data request) "product_id"))
               || negb (truthy (dict_get (data request) "shop_id"))
               || (q <=? 0) = true).
  { destruct Hbad as [H | [H | H]].
    - rewrite H. reflexivity.
    - rewrite H. cbn [negb]. rewrite orb_true_r. reflexivity.
    - apply Z.leb_le in H. rewrite H. apply orb_true_r. }
  destruct op; cbv beta delta [handler reserve release commit] iota zeta;
    rewrite Hq; cbn [lift bind]; rewrite Hc; reflexivity.
Qed.

(** A quantity [int()] refuses ends the view on its third line, with the
    exception of [int()]. *)
Lemma handler_quantity_raises op request e :
  quantity_arg request = inl e ->
  handler op request = Raise e.
Proof.
  intros Hq. unfold quantity_arg in Hq.
  destruct op; cbv beta delta [handler reserve release commit] iota zeta;
    rewrite Hq; reflexivity.
Qed.

(** ** Facts about the table *)

Lemma first_match_keys p s db inv :
  first_match p s db = Some inv -> product_id inv = p /\ shop_id inv = s.
Proof.
  unfold first_match. intros H. apply find_some in H as [_ H].
  apply andb_true_iff in H as [H1 H2].
  apply Z.eqb_eq in H1, H2. auto.
Qed.

Lemma first_match_In p s db inv :
  first_match p s db = Some inv -> In inv db.
Proof.
  unfold first_match. intros H. apply find_some in H. tauto.
Qed.

Lemma existsb_pk_In inv (db : Db) :
  In inv db -> existsb (fun r => pk r =? pk inv) db = true.
Proof.
  intros H. apply existsb_exists. exists inv. split; [exact H | apply Z.eqb_refl].
Qed.

(** Saving a row that was read from the table overwrites it in place. *)
Lemma save_row_loaded inv inv' (db : Db) :
  In inv db -> pk inv' = pk inv ->
  save_row inv' db = map (fun r => if pk r =? pk inv then inv' else r) db.
Proof.
  intros Hin Hpk. unfold save_row. rewrite Hpk.
  rewrite (existsb_pk_In inv db Hin). reflexivity.
Qed.

(** After a row found by its pair is saved with the same key and pair, the
    pair finds the saved row. *)
Lemma first_match_save p s inv inv' (db : Db) :
  first_match p s db = Some inv ->
  pk inv' = pk inv -> product_id inv' = p -> shop_id inv' = s ->
  first_match p s (save_row inv' db) = Some inv'.
Proof.
  intros Hf Hpk Hp Hs.
  rewrite (save_row_loaded inv inv' db (first_match_In _ _ _ _ Hf) Hpk).
  unfold first_match in *.
  induction db as [|r db IH]; [discriminate|].
  cbn [List.find map] in *.
  destruct (pk r =? pk inv) eqn:Hk.
  - rewrite Hp, Hs, !Z.eqb_refl. reflexivity.
  - destruct ((product_id r =? p) && (shop_id r =? s)) eqn:Hm.
    + injection Hf as ->. rewrite Z.eqb_refl in Hk. discriminate.
    + apply IH. exact Hf.
Qed.

Lemma pk_unique_In (db : Db) r1 r2 :
  pk_unique db -> In r1 db -> In r2 db -> pk r1 = pk r2 -> r1 = r2.
Proof.
  unfold pk_unique. induction db as [|r db IH]; cbn; [tauto|].
  intros Hnd [-> | H1] [-> | H2] Hpk; inversion Hnd as [|? ? Hni Hnd']; subst.
  - reflexivity.
  - exfalso. apply Hni. rewrite Hpk. apply list_elem_of_In, in_map. exact H2.
  - exfalso. apply Hni. rewrite <- Hpk. apply list_elem_of_In, in_map. exact H1.
  - apply IH; assumption.
Qed.

(** With unique primary keys, saving back the very row that was read leaves
    the table as it was. *)
Lemma save_row_same inv (db : Db) :
  pk_unique db -> In inv db -> save_row inv db = db.
Proof.
  intros Hu Hin. rewrite (save_row_loaded inv inv db Hin eq_refl).
  rewrite <- (map_id db) at 2. apply map_ext_in.
  intros r Hr. destruct (pk r =? pk inv) eqn:Hk; [|reflexivity].
  apply Z.eqb_eq in Hk. symmetry. apply (pk_unique_In db); assumption.
Qed.

Lemma set_reserved_back inv q :
  0 <= reserved inv ->
  set_reserved (set_reserved inv (reserved inv + q))
               (Z.max (reserved (set_reserved inv (reserved inv + q)) - q) 0) = inv.
Proof.
  intros H. destruct inv as [k p s st r t m]. unfold set_reserved. cbn in *.
  f_equal. lia.
Qed.

Lemma order_body_valid p s q :
  p <> 0 -> s <> 0 -> 0 < q -> valid_args (order_body p s q) p s q.
Proof.
  intros Hp Hs Hq. unfold valid_args, quantity_arg, order_body, dict_get,
    dict_get_default, get_prep_value. cbn [data].
  rewrite lookup_insert_ne by discriminate.
  rewrite lookup_insert_ne by discriminate.
  rewrite lookup_insert_eq.
  rewrite lookup_insert_eq.
  rewrite lookup_insert_ne by discriminate.
  rewrite lookup_insert_eq.
  cbv beta iota delta [default from_option id py_or truthy].
  assert (Hq0 : (q =? 0) = false) by (apply Z.eqb_neq; lia).
  assert (Hp0 : (p =? 0) = false) by (apply Z.eqb_neq; lia).
  assert (Hs0 : (s =? 0) = false) by (apply Z.eqb_neq; lia).
  rewrite Hq0, Hp0, Hs0. cbn [negb py_int]. repeat split; try reflexivity. exact Hq.
Qed.

(** ** Argument checking (C5, C10) *)

(** C5, as the code has it: in [reserve], [release] and [commit], once
    [int()] has returned the quantity [q], a missing or otherwise falsy
    [product_id] or [shop_id], or [q <= 0], raises the validation error, and
    no query and no save has been performed.  A quantity is not required to
    be an integer: [int()] truncates a JSON number with a fraction. *)
Theorem argument_check_precedes_lookup op request q db :
  quantity_arg request = inr q ->
  truthy (dict_get (data request) "product_id") = false \/
  truthy (dict_get (data request) "shop_id") = false \/
  q <= 0 ->
  exec (handler op request) db =
  (inl (ValidationError "detail" "product_id, shop_id and positive quantity required"),
   db, []).
Proof.
  intros Hq Hbad. rewrite (handler_rejects op request q Hq Hbad). reflexivity.
Qed.

Lemma argument_check_precedes_lookup_witness :
  quantity_arg (body_with JNull (JInt 5) (JStr "2")) = inr 2 /\
  exec (handler OpCommit (body_with JNull (JInt 5) (JStr "2"))) (shelf 10 4) =
  (inl (ValidationError "detail" "product_id, shop_id and positive quantity required"),
   shelf 10 4, []).
Proof.
  split; [vm_compute; reflexivity|].
  apply (argument_check_precedes_lookup OpCommit _ 2).
  - vm_compute; reflexivity.
  - left. vm_compute; reflexivity.
Defined.

(** C5 fails as stated: the quantity 2.5 is not an integer, and [reserve]
    serves it as 2. *)
Lemma fractional_quantity_is_served :
  data (body_with (JInt 10) (JInt 5) (JFloat two_and_a_half)) !! "quantity"
    = Some (JFloat two_and_a_half) /\
  exec (reserve (body_with (JInt 10) (JInt 5) (JFloat two_and_a_half))) (shelf 10 0) =
  (inr (mkResponse (InventoryData (shelf_row 10 2) 8) 200),
   shelf 10 2,
   [EvFilterFirst 10 5; EvSave (shelf_row 10 2)]).
Proof. split; vm_compute; reflexivity. Qed.

(** The other half of C5 that the code does not deliver: a quantity that
    [int()] refuses is not turned into a validation error; the exception of
    [int()] leaves the view (before any query). *)
Lemma non_numeric_quantity_raises op request e db :
  quantity_arg request = inl e ->
  exec (handler op request) db = (inl e, db, []).
Proof.
  intros Hq. rewrite (handler_quantity_raises op request e Hq). reflexivity.
Qed.

Example non_numeric_quantity_example :
  exec (reserve (body_with (JInt 10) (JInt 5) (JStr "abc"))) (shelf 10 0) =
  (inl ValueError, shelf 10 0, []).
Proof. vm_compute; reflexivity. Qed.




(** The same on the body the docstrings give, for every integer quantity:
    there [int()] always returns. *)
Lemma zero_id_in_order_body op p s q db :
  p = 0 \/ s = 0 ->
  exec (handler op (order_body p s q)) db =
  (inl (ValidationError "detail" "product_id, shop_id and positive quantity required"),
   db, []).
Proof.
  intros Hz.
  assert (Hq : quantity_arg (order_body p s q) = inr q).
  { unfold quantity_arg, order_body, dict_get_default. cbn [data].
    rewrite lookup_insert_ne by discriminate.
    rewrite lookup_insert_ne by discriminate.
    rewrite lookup_insert_eq.
    cbv beta iota delta [default from_option id py_or truthy].
    destruct (Z.eqb_spec q 0) as [-> |]; reflexivity. }
  rewrite (handler_rejects op _ q Hq); [reflexivity|].
  unfold order_body, dict_get. cbn [data].
  destruct Hz as [-> | ->]; [left | right; left].
  - rewrite lookup_insert_ne by discriminate. rewrite lookup_insert_eq. reflexivity.
  - rewrite lookup_insert_eq. reflexivity.
Qed.

(** ** Not found and insufficient (C6) *)

(** C6: on checked arguments, [reserve] raises [NotFound] when no row has the
    pair, and answers 400 "Not enough available stock" when the row has fewer
    than [q] units available; the two outcomes differ, and neither touches
    the table. *)
Theorem reserve_not_found_vs_insufficient request p s q db :
  valid_args request p s q ->
  (first_match p s db = None ->
   exec (reserve request) db =
   (inl (NotFound "Inventory record not found"), db, [EvFilterFirst p s])) /\
  (forall inv, first_match p s db = Some inv -> stock inv - reserved inv < q ->
   exec (reserve request) db =
   (inr (mkResponse (Detail "Not enough available stock") 400), db,
    [EvFilterFirst p s])) /\
  @inl PyExc Response (NotFound "Inventory record not found") <>
  inr (mkResponse (Detail "Not enough available stock") 400).
Proof.
  intros H. rewrite (reserve_checked request p s q H).
  destruct H as (_ & Hpos & _).
  split; [|split].
  - intros Hf. cbn [exec]. rewrite Hf. reflexivity.
  - intros inv Hf Hlt. cbn [exec]. rewrite Hf.
    replace (available inv <? q) with true; [reflexivity|].
    symmetry. apply Z.ltb_lt. unfold available. lia.
  - discriminate.
Qed.

Lemma reserve_not_found_vs_insufficient_witness :
  valid_args (order_body 10 5 5) 10 5 5 /\
  exec (reserve (order_body 10 5 5)) [] =
  (inl (NotFound "Inventory record not found"), [], [EvFilterFirst 10 5]) /\
  exec (reserve (order_body 10 5 5)) (shelf 6 4) =
  (inr (mkResponse (Detail "Not enough available stock") 400), shelf 6 4,
   [EvFilterFirst 10 5]).
Proof.
  assert (Hv : valid_args (order_body 10 5 5) 10 5 5)
    by (apply order_body_valid; lia).
  split; [exact Hv|].
  destruct (reserve_not_found_vs_insufficient (order_body 10 5 5) 10 5 5 [] Hv)
    as (Hnone & _ & _).
  destruct (reserve_not_found_vs_insufficient (order_body 10 5 5) 10 5 5 (shelf 6 4) Hv)
    as (_ & Hsome & _).
  split.
  - apply Hnone. reflexivity.
  - apply (Hsome (shelf_row 6 4)); [reflexivity | cbn; lia].
Defined.

(** ** Commit, release and the round trip (C7, C8, C9) *)

(** C7, as the code has it: for an existing row and a [commit] call that
    passes the argument check (the identifiers are truthy, so not the
    integer 0, and [int()] reads them as the pair of the row; the quantity
    is read as [q > 0]), [commit] with [reserved >= q] saves the row with
    [reserved - q] and [max (stock - q) 0] and answers 200; with
    [reserved < q] it answers 400 "Not enough reserved stock" and the table
    is unchanged. *)
Theorem commit_effect request p s q db inv :
  valid_args request p s q ->
  first_match p s db = Some inv ->
  (q <= reserved inv ->
   let inv' := set_stock (set_reserved inv (reserved inv - q))
                         (Z.max (stock inv - q) 0) in
   exec (commit request) db =
   (inr (mkResponse (serialize inv') 200), save_row inv' db,
    [EvFilterFirst p s; EvSave inv']) /\
   first_match p s (save_row inv' db) = Some inv' /\
   reserved inv' = reserved inv - q /\
   stock inv' = Z.max (stock inv - q) 0) /\
  (reserved inv < q ->
   exec (commit request) db =
   (inr (mkResponse (Detail "Not enough reserved stock") 400), db,
    [EvFilterFirst p s])).
Proof.
  intros H Hf. rewrite (commit_checked request p s q H).
  destruct (first_match_keys p s db inv Hf) as [Hp Hs].
  cbn [exec]. rewrite Hf. split.
  - intros Hle. cbv zeta.
    replace (reserved inv <? q) with false by (symmetry; apply Z.ltb_ge; lia).
    repeat split.
    apply (first_match_save p s inv); auto.
  - intros Hlt.
    replace (reserved inv <? q) with true by (symmetry; apply Z.ltb_lt; lia).
    reflexivity.
Qed.

Lemma commit_effect_witness :
  valid_args (order_body 10 5 4) 10 5 4 /\
  first_match 10 5 (shelf 10 4) = Some (shelf_row 10 4) /\
  4 <= reserved (shelf_row 10 4) /\
  exec (commit (order_body 10 5 4)) (shelf 10 4) =
  (inr (mkResponse (InventoryData (shelf_row 6 0) 6) 200), shelf 6 0,
   [EvFilterFirst 10 5; EvSave (shelf_row 6 0)]).
Proof.
  assert (Hv : valid_args (order_body 10 5 4) 10 5 4)
    by (apply order_body_valid; lia).
  assert (Hle : 4 <= reserved (shelf_row 10 4)) by (cbn; lia).
  split; [exact Hv | split; [reflexivity | split; [exact Hle |]]].
  destruct (commit_effect (order_body 10 5 4) 10 5 4 (shelf 10 4) (shelf_row 10 4)
              Hv eq_refl) as [Hok _].
  destruct (Hok Hle) as [Hexec _]. exact Hexec.
Defined.

(** C7 fails as stated: the record of product 0 at shop 5 exists, with stock
    10 and reserved 4, and [commit] of 4 for it is refused by the argument
    check; the record keeps stock 10 and reserved 4. *)
Lemma commit_on_zero_id_record_is_refused :
  first_match 0 5 [mkInventory 7 0 5 10 4 0 (JObj [])] = Some (mkInventory 7 0 5 10 4 0 (JObj [])) /\
  4 <= reserved (mkInventory 7 0 5 10 4 0 (JObj [])) /\
  exec (commit (order_body 0 5 4)) [mkInventory 7 0 5 10 4 0 (JObj [])] =
  (inl (ValidationError "detail" "product_id, shop_id and positive quantity required"),
   [mkInventory 7 0 5 10 4 0 (JObj [])], []).
Proof. split; [reflexivity | split; [cbn; lia | vm_compute; reflexivity]]. Qed.

(** What [release] does to an existing row. *)
Lemma release_saves request p s q db inv :
  valid_args request p s q ->
  first_match p s db = Some inv ->
  exec (release request) db =
  (inr (mkResponse (serialize (set_reserved inv (Z.max (reserved inv - q) 0))) 200),
   save_row (set_reserved inv (Z.max (reserved inv - q) 0)) db,
   [EvFilterFirst p s; EvSave (set_reserved inv (Z.max (reserved inv - q) 0))]) /\
  first_match p s (save_row (set_reserved inv (Z.max (reserved inv - q) 0)) db)
  = Some (set_reserved inv (Z.max (reserved inv - q) 0)).
Proof.
  intros H Hf. rewrite (release_checked request p s q H).
  destruct (first_match_keys p s db inv Hf) as [Hp Hs].
  cbn [exec]. rewrite Hf. split; [reflexivity|].
  apply (first_match_save p s inv); auto.
Qed.

(** C8, as the code has it: for an existing row and a [release] call that
    passes the argument check (the identifiers are truthy, so not the
    integer 0, and [int()] reads them as the pair of the row; the quantity
    is read as [q > 0]), [release] always answers 200 and saves the row with
    [reserved] set to [max (reserved - q) 0], which is never negative. *)
Theorem release_effect request p s q db inv :
  valid_args request p s q ->
  first_match p s db = Some inv ->
  let inv' := set_reserved inv (Z.max (reserved inv - q) 0) in
  exec (release request) db =
  (inr (mkResponse (serialize inv') 200), save_row inv' db,
   [EvFilterFirst p s; EvSave inv']) /\
  first_match p s (save_row inv' db) = Some inv' /\
  reserved inv' = Z.max (reserved inv - q) 0 /\
  0 <= reserved inv' /\
  stock inv' = stock inv.
Proof.
  intros H Hf inv'.
  destruct (release_saves request p s q db inv H Hf) as [He Hrow].
  split; [exact He | split; [exact Hrow |]].
  unfold inv'. cbn. repeat split. lia.
Qed.

Lemma release_effect_witness :
  valid_args (order_body 10 5 100) 10 5 100 /\
  first_match 10 5 (shelf 10 3) = Some (shelf_row 10 3) /\
  exec (release (order_body 10 5 100)) (shelf 10 3) =
  (inr (mkResponse (InventoryData (shelf_row 10 0) 10) 200), shelf 10 0,
   [EvFilterFirst 10 5; EvSave (shelf_row 10 0)]).
Proof.
  assert (Hv : valid_args (order_body 10 5 100) 10 5 100)
    by (apply order_body_valid; lia).
  split; [exact Hv | split; [reflexivity |]].
  destruct (release_effect (order_body 10 5 100) 10 5 100 (shelf 10 3) (shelf_row 10 3)
              Hv eq_refl) as [Hexec _].
  exact Hexec.
Defined.

(** C8 fails as stated: the record of product 0 at shop 5 exists, with
    reserved 4, and [release] of 2 for it does not succeed: the argument
    check refuses the call and reserved stays 4. *)
Lemma release_on_zero_id_record_is_refused :
  first_match 0 5 [mkInventory 7 0 5 10 4 0 (JObj [])] = Some (mkInventory 7 0 5 10 4 0 (JObj [])) /\
  exec (release (order_body 0 5 2)) [mkInventory 7 0 5 10 4 0 (JObj [])] =
  (inl (ValidationError "detail" "product_id, shop_id and positive quantity required"),
   [mkInventory 7 0 5 10 4 0 (JObj [])], []).
Proof. split; [reflexivity | vm_compute; reflexivity]. Qed.

(** What [reserve] does when the units are available. *)
Lemma reserve_effect request p s q db inv :
  valid_args request p s q ->
  first_match p s db = Some inv ->
  q <= stock inv - reserved inv ->
  exec (reserve request) db =
  (inr (mkResponse (serialize (set_reserved inv (reserved inv + q))) 200),
   save_row (set_reserved inv (reserved inv + q)) db,
   [EvFilterFirst p s; EvSave (set_reserved inv (reserved inv + q))]).
Proof.
  intros H Hf Hle. rewrite (reserve_checked request p s q H).
  cbn [exec]. rewrite Hf.
  replace (available inv <? q) with false; [reflexivity|].
  symmetry. apply Z.ltb_ge. unfold available. lia.
Qed.


(** C9: for a row with [0 <= reserved <= stock] and [q] units available,
    [reserve] followed by [release] of the same request succeeds twice; in
    between the row holds [reserved + q] with the same stock, and afterwards
    the row is exactly the row before the reserve (same reserved, same
    stock). *)
Theorem reserve_release_round_trip request p s q db inv :
  valid_args request p s q ->
  first_match p s db = Some inv ->
  ledger_ok inv ->
  q <= stock inv - reserved inv ->
  let held := set_reserved inv (reserved inv + q) in
  let o1 := exec (reserve request) db in
  let o2 := exec (release request) (db_of o1) in
  result_of o1 = inr (mkResponse (serialize held) 200) /\
  first_match p s (db_of o1) = Some held /\
  stock held = stock inv /\
  result_of o2 = inr (mkResponse (serialize inv) 200) /\
  first_match p s (db_of o2) = Some inv.
Proof.
  intros H Hf (Hr0 & _ & _) Hle held o1 o2.
  destruct (first_match_keys p s db inv Hf) as [Hp Hs].
  assert (E1 : o1 = (inr (mkResponse (serialize held) 200), save_row held db,
                     [EvFilterFirst p s; EvSave held]))
    by (apply reserve_effect; assumption).
  assert (Hf1 : first_match p s (db_of o1) = Some held).
  { rewrite E1. apply (first_match_save p s inv); auto. }
  destruct (release_saves request p s q (db_of o1) held H Hf1)
    as (E2 & Hf2).
  fold o2 in E2.
  assert (Hback : set_reserved held (Z.max (reserved held - q) 0) = inv)
    by (apply set_reserved_back; exact Hr0).
  rewrite Hback in E2, Hf2.
  repeat split.
  - rewrite E1. reflexivity.
  - exact Hf1.
  - rewrite E2. reflexivity.
  - rewrite E2. exact Hf2.
Qed.

Lemma reserve_release_round_trip_witness :
  valid_args (order_body 10 5 5) 10 5 5 /\
  first_match 10 5 (shelf 10 2) = Some (shelf_row 10 2) /\
  ledger_ok (shelf_row 10 2) /\
  5 <= stock (shelf_row 10 2) - reserved (shelf_row 10 2) /\
  first_match 10 5 (db_of (exec (reserve (order_body 10 5 5)) (shelf 10 2)))
    = Some (shelf_row 10 7) /\
  first_match 10 5
    (db_of (exec (release (order_body 10 5 5))
                 (db_of (exec (reserve (order_body 10 5 5)) (shelf 10 2)))))
    = Some (shelf_row 10 2).
Proof.
  assert (Hv : valid_args (order_body 10 5 5) 10 5 5)
    by (apply order_body_valid; lia).
  assert (Hok : ledger_ok (shelf_row 10 2)) by (unfold ledger_ok; cbn; lia).
  assert (Hle : 5 <= stock (shelf_row 10 2) - reserved (shelf_row 10 2))
    by (cbn; lia).
  destruct (reserve_release_round_trip (order_body 10 5 5) 10 5 5 (shelf 10 2)
              (shelf_row 10 2) Hv eq_refl Hok Hle) as (_ & H1 & _ & _ & H2).
  split; [exact Hv | split; [reflexivity | split; [exact Hok | split; [exact Hle |]]]].
  split; [exact H1 | exact H2].
Defined.

(** ** Availability (C3) *)

Lemma get_pk_key k db inv : get_pk k db = Some inv -> pk inv = k /\ In inv db.
Proof.
  unfold get_pk. intros H. apply find_some in H as [Hin H].
  apply Z.eqb_eq in H. auto.
Qed.

Lemma get_pk_save k inv inv' (db : Db) :
  get_pk k db = Some inv -> pk inv' = pk inv ->
  get_pk k (save_row inv' db) = Some inv'.
Proof.
  intros Hg Hpk. destruct (get_pk_key k db inv Hg) as [Hk Hin].
  rewrite (save_row_loaded inv inv' db Hin Hpk).
  unfold get_pk in *. rewrite Hk.
  induction db as [|r db IH]; [discriminate|].
  cbn [List.find map] in *.
  destruct (pk r =? k) eqn:Hrk.
  - rewrite Hpk, Hk, Z.eqb_refl. reflexivity.
  - rewrite Hrk. apply IH.
    + exact Hg.
    + apply find_some in Hg. tauto.
Qed.

(** A query parameter that [int()] accepts is a non-empty string. *)
Lemma params_prep_truthy d k z :
  get_prep_value (params_get d k) = inr z -> truthy (params_get d k) = true.
Proof.
  unfold params_get, get_prep_value. destruct (d !! k) as [s|]; [|discriminate].
  destruct s; [discriminate | reflexivity].
Qed.

(** C3, as the code has it: for an existing row, [availability] reports
    [available = max (stock - reserved) 0] next to the stored [stock] and
    [reserved]; this is [stock - reserved] when [reserved <= stock], and 0
    when [reserved] exceeds [stock]. *)
Theorem availability_is_clamped request p s db inv :
  get_prep_value (params_get (query_params request) "product_id") = inr p ->
  get_prep_value (params_get (query_params request) "shop_id") = inr s ->
  first_match p s db = Some inv ->
  exec (availability request) db =
  (inr (mkResponse (Availability (Z.max (stock inv - reserved inv) 0)
                                 (stock inv) (reserved inv)) 200),
   db, [EvFilterFirst p s]) /\
  (reserved inv <= stock inv ->
   available inv = stock inv - reserved inv) /\
  (stock inv < reserved inv -> available inv = 0).
Proof.
  intros Hp Hs Hf. split; [|unfold available; split; lia].
  cbv beta delta [availability objects_filter_first] zeta.
  rewrite (params_prep_truthy _ _ _ Hp), (params_prep_truthy _ _ _ Hs).
  cbn [negb orb]. rewrite Hp, Hs. cbn [lift bind exec]. rewrite Hf.
  reflexivity.
Qed.

Lemma availability_is_clamped_witness :
  get_prep_value (params_get (query_params (query_of "10" "5")) "product_id") = inr 10 /\
  get_prep_value (params_get (query_params (query_of "10" "5")) "shop_id") = inr 5 /\
  first_match 10 5 (shelf 10 4) = Some (shelf_row 10 4) /\
  exec (availability (query_of "10" "5")) (shelf 10 4) =
  (inr (mkResponse (Availability 6 10 4) 200), shelf 10 4, [EvFilterFirst 10 5]).
Proof.
  assert (Hp : get_prep_value (params_get (query_params (query_of "10" "5")) "product_id")
               = inr 10) by (vm_compute; reflexivity).
  assert (Hs : get_prep_value (params_get (query_params (query_of "10" "5")) "shop_id")
               = inr 5) by (vm_compute; reflexivity).
  split; [exact Hp | split; [exact Hs | split; [reflexivity |]]].
  destruct (availability_is_clamped (query_of "10" "5") 10 5 (shelf 10 4)
              (shelf_row 10 4) Hp Hs eq_refl) as [Hexec _].
  exact Hexec.
Defined.

(** C3 fails as stated: with stock 3 and reserved 5 the reported
    [available] is 0, not [3 - 5]. *)
Lemma availability_clamps_at_zero :
  exec (availability (query_of "10" "5")) (shelf 3 5) =
  (inr (mkResponse (Availability 0 3 5) 200), shelf 3 5, [EvFilterFirst 10 5]) /\
  0 <> stock (shelf_row 3 5) - reserved (shelf_row 3 5).
Proof. split; [vm_compute; reflexivity | cbn; lia]. Qed.

(** ** Administrative edits (C4) *)

(** C4, as the code has it: [update_stock] on an existing row, with a
    "stock" value [int()] accepts (and a "threshold", if any, that [int()]
    accepts), does not re-validate anything: it neither rejects the edit nor
    clamps [reserved], and calls [save()] on the row with the new stock and
    with [reserved] as it was, so the row handed to the database satisfies
    [reserved <= stock] exactly when the new stock is at least the current
    [reserved].  When the new stock and threshold are integers the column
    stores on every backend and the body sets no "meta", the save succeeds:
    the answer is 200 and the table holds that row. *)
Theorem update_stock_keeps_reserved request key k db inv v z :
  get_prep_value (JStr key) = inr k ->
  get_pk k db = Some inv ->
  data request !! "stock" = Some v ->
  py_int v = inr z ->
  (forall v', data request !! "threshold" = Some v' -> exists t, py_int v' = inr t) ->
  exists inv',
    trace_of (exec (update_stock request key) db) = [EvGet k; EvSave inv'] /\
    pk inv' = pk inv /\
    stock inv' = z /\
    reserved inv' = reserved inv /\
    (reserved inv' <= stock inv' <-> reserved inv <= z) /\
    (int_column z ->
     (forall v' t, data request !! "threshold" = Some v' -> py_int v' = inr t ->
                   int_column t) ->
     data request !! "meta" = None ->
     exec (update_stock request key) db =
     (inr (mkResponse (serialize inv') 200), save_row inv' db,
      [EvGet k; EvSave inv']) /\
     get_pk k (save_row inv' db) = Some inv').
Proof.
  intros Hk Hg Hst Hz Hth.
  cbv beta delta [update_stock get_object_or_404 save] zeta.
  rewrite Hk, Hst, Hz. cbn [lift bind exec]. rewrite Hg. cbn [bind].
  destruct (data request !! "threshold") as [v'|] eqn:Ht.
  - destruct (Hth v' eq_refl) as [t Hpt]. rewrite Hpt. cbn [bind].
    destruct (data request !! "meta") as [m|]; cbn [exec trace_of snd];
      eexists; (split; [reflexivity|]);
      cbn [pk stock reserved set_meta set_threshold set_stock];
      (split; [reflexivity|]); (split; [reflexivity|]); (split; [reflexivity|]);
      (split; [lia|]); intros _ _ Hm; [discriminate|].
    split; [reflexivity | apply (get_pk_save k inv); [exact Hg | reflexivity]].
  - cbn [bind].
    destruct (data request !! "meta") as [m|]; cbn [exec trace_of snd];
      eexists; (split; [reflexivity|]);
      cbn [pk stock reserved set_meta set_threshold set_stock];
      (split; [reflexivity|]); (split; [reflexivity|]); (split; [reflexivity|]);
      (split; [lia|]); intros _ _ Hm; [discriminate|].
    split; [reflexivity | apply (get_pk_save k inv); [exact Hg | reflexivity]].
Qed.

Lemma update_stock_keeps_reserved_witness :
  get_prep_value (JStr "1") = inr 1 /\
  get_pk 1 (shelf 10 4) = Some (shelf_row 10 4) /\
  data (stock_edit (JInt 7)) !! "stock" = Some (JInt 7) /\
  py_int (JInt 7) = inr 7 /\
  int_column 7 /\
  data (stock_edit (JInt 7)) !! "meta" = None /\
  exists inv',
    exec (update_stock (stock_edit (JInt 7)) "1") (shelf 10 4) =
    (inr (mkResponse (serialize inv') 200), save_row inv' (shelf 10 4),
     [EvGet 1; EvSave inv']) /\
    stock inv' = 7 /\ reserved inv' = 4.
Proof.
  assert (Hc : int_column 7) by (unfold int_column; lia).
  assert (Hm : data (stock_edit (JInt 7)) !! "meta" = None) by (vm_compute; reflexivity).
  split; [vm_compute; reflexivity | split; [reflexivity |
    split; [vm_compute; reflexivity | split; [reflexivity |
    split; [exact Hc | split; [exact Hm|]]]]]].
  destruct (update_stock_keeps_reserved (stock_edit (JInt 7)) "1" 1 (shelf 10 4)
              (shelf_row 10 4) (JInt 7) 7) as (inv' & _ & _ & Hs & Hr & _ & Hsave).
  - vm_compute; reflexivity.
  - reflexivity.
  - vm_compute; reflexivity.
  - reflexivity.
  - intros v' Hv'. vm_compute in Hv'. discriminate.
  - exists inv'.
    assert (Ht : forall v' t, data (stock_edit (JInt 7)) !! "threshold" = Some v' ->
                              py_int v' = inr t -> int_column t).
    { intros v' t Hv'. vm_compute in Hv'. discriminate. }
    destruct (Hsave Hc Ht Hm) as [He _].
    split; [exact He | split; [exact Hs | exact Hr]].
Defined.

(** C4 fails as stated: lowering the stock of a row with stock 10 and
    reserved 4 to 2 is accepted, and the row is left with reserved 4 above
    stock 2. *)
Lemma update_stock_below_reserved :
  exec (update_stock (stock_edit (JInt 2)) "1") (shelf 10 4) =
  (inr (mkResponse (InventoryData (shelf_row 2 4) 0) 200), shelf 2 4,
   [EvGet 1; EvSave (shelf_row 2 4)]) /\
  ~ reserved (shelf_row 2 4) <= stock (shelf_row 2 4).
Proof. split; [vm_compute; reflexivity | cbn; lia]. Qed.

(** ** The ledger invariant over sequences of calls (C2) *)

(** Every call either stops before its query, or queries once and then at
    most saves. *)
Lemma handler_cases op request :
  (exists e, handler op request = Raise e) \/
  (exists p s q, valid_args request p s q).
Proof.
  destruct (quantity_arg request) as [e|q] eqn:Hq.
  { left. exists e. apply handler_quantity_raises. exact Hq. }
  destruct (truthy (dict_get (data request) "product_id")) eqn:Htp.
  2:{ left. eexists. apply (handler_rejects op request q Hq). auto. }
  destruct (truthy (dict_get (data request) "shop_id")) eqn:Hts.
  2:{ left. eexists. apply (handler_rejects op request q Hq). auto. }
  destruct (Z.leb_spec q 0) as [Hle|Hpos].
  { left. eexists. apply (handler_rejects op request q Hq). auto. }
  assert (Hgt : (q <=? 0) = false) by (apply Z.leb_gt; exact Hpos).
  unfold quantity_arg in Hq.
  destruct (get_prep_value (dict_get (data request) "product_id")) as [e|p] eqn:Hp.
  { left. exists e.
    destruct op; cbv beta delta [handler reserve release commit objects_filter_first]
      iota zeta; rewrite Hq; cbn [lift bind]; rewrite Htp, Hts, Hgt, Hp; reflexivity. }
  destruct (get_prep_value (dict_get (data request) "shop_id")) as [e|s] eqn:Hs.
  { left. exists e.
    destruct op; cbv beta delta [handler reserve release commit objects_filter_first]
      iota zeta; rewrite Hq; cbn [lift bind]; rewrite Htp, Hts, Hgt, Hp, Hs;
      reflexivity. }
  right. exists p, s, q. unfold valid_args, quantity_arg. auto 7.
Qed.

Lemma row_kept_refl r : row_kept r r.
Proof. unfold row_kept. auto. Qed.

Lemma row_kept_trans r1 r2 r3 : row_kept r1 r2 -> row_kept r2 r3 -> row_kept r1 r3.
Proof.
  unfold row_kept. intros (H1 & H2 & H3 & H4) (K1 & K2 & K3 & K4).
  repeat split; try congruence; apply K4, H4; assumption.
Qed.

Lemma rows_kept_refl (db : Db) : Forall2 row_kept db db.
Proof. induction db; constructor; auto using row_kept_refl. Qed.

Lemma rows_kept_trans (d1 d2 d3 : Db) :
  Forall2 row_kept d1 d2 -> Forall2 row_kept d2 d3 -> Forall2 row_kept d1 d3.
Proof.
  intros H. revert d3. induction H as [|r1 r2 d1 d2 Hr _ IH]; intros d3 K.
  - inversion K. constructor.
  - inversion K as [|? r3 ? d3' Hr' K']; subst. constructor.
    + eapply row_kept_trans; eassumption.
    + apply IH. exact K'.
Qed.

Lemma rows_kept_pk (d1 d2 : Db) : Forall2 row_kept d1 d2 -> map pk d2 = map pk d1.
Proof.
  induction 1 as [|r1 r2 d1 d2 (Hk & _) _ IH]; cbn; [reflexivity|].
  rewrite Hk, IH. reflexivity.
Qed.

Lemma rows_kept_save (db : Db) inv inv' :
  pk_unique db -> In inv db -> row_kept inv inv' ->
  Forall2 row_kept db (save_row inv' db).
Proof.
  intros Hu Hin Hk. rewrite (save_row_loaded inv inv' db Hin (proj1 Hk)).
  assert (Hall : forall r, In r db ->
            row_kept r (if pk r =? pk inv then inv' else r)).
  { intros r Hr. destruct (pk r =? pk inv) eqn:E; [|apply row_kept_refl].
    apply Z.eqb_eq in E. rewrite (pk_unique_In db r inv Hu Hr Hin E). exact Hk. }
  clear Hu Hin. induction db as [|r db IH]; cbn [map]; constructor.
  - apply Hall. left. reflexivity.
  - apply IH. intros r' Hr'. apply Hall. right. exact Hr'.
Qed.

(** One call, any request: each row keeps its identity and its invariant. *)
Lemma handler_rows_kept op request db :
  pk_unique db ->
  Forall2 row_kept db (db_of (exec (handler op request) db)).
Proof.
  intros Hu.
  destruct (handler_cases op request) as [[e He] | (p & s & q & H)].
  { rewrite He. apply rows_kept_refl. }
  assert (Hpos : 0 < q) by (destruct H as (_ & Hpos & _); exact Hpos).
  destruct op; cbn [handler].
  - rewrite (reserve_checked request p s q H). cbn [exec].
    destruct (first_match p s db) as [inv|] eqn:Hf; [|apply rows_kept_refl].
    destruct (available inv <? q) eqn:Ha; [apply rows_kept_refl|].
    cbn [exec db_of fst snd].
    apply (rows_kept_save db inv); [exact Hu | eapply first_match_In; exact Hf |].
    apply Z.ltb_ge in Ha. unfold available in Ha.
    unfold row_kept, ledger_ok. cbn. repeat split; lia.
  - rewrite (release_checked request p s q H). cbn [exec].
    destruct (first_match p s db) as [inv|] eqn:Hf; [|apply rows_kept_refl].
    cbn [exec db_of fst snd].
    apply (rows_kept_save db inv); [exact Hu | eapply first_match_In; exact Hf |].
    unfold row_kept, ledger_ok. cbn. repeat split; lia.
  - rewrite (commit_checked request p s q H). cbn [exec].
    destruct (first_match p s db) as [inv|] eqn:Hf; [|apply rows_kept_refl].
    destruct (reserved inv <? q) eqn:Ha; [apply rows_kept_refl|].
    cbn [exec db_of fst snd].
    apply (rows_kept_save db inv); [exact Hu | eapply first_match_In; exact Hf |].
    apply Z.ltb_ge in Ha.
    unfold row_kept, ledger_ok. cbn. repeat split; lia.
Qed.

Lemma rows_kept_ledger (d d' : Db) :
  Forall2 row_kept d d' -> Forall ledger_ok d -> Forall ledger_ok d'.
Proof.
  induction 1 as [|r r' d d' (_ & _ & _ & Hk) _ IH]; intros Hall; [constructor|].
  inversion Hall; subst. constructor; auto.
Qed.

(** C2: over a table with unique primary keys, after any finite sequence of
    [reserve], [release] and [commit] calls, with any requests (accepted or
    refused), every row is still the same record, and a row that satisfied
    [0 <= reserved <= stock] and [0 <= stock] before the calls satisfies it
    after them; in particular, if all rows satisfied it, all rows do. *)
Theorem ledger_invariant_preserved calls db :
  pk_unique db ->
  Forall2 row_kept db (run_calls calls db) /\
  (Forall ledger_ok db -> Forall ledger_ok (run_calls calls db)).
Proof.
  intros Hu.
  assert (H : Forall2 row_kept db (run_calls calls db)).
  { revert db Hu.
    induction calls as [|[op request] calls IH]; intros db Hu; cbn [run_calls].
    - apply rows_kept_refl.
    - pose proof (handler_rows_kept op request db Hu) as H1.
      eapply rows_kept_trans; [exact H1|].
      apply IH. unfold pk_unique in *. rewrite (rows_kept_pk _ _ H1). exact Hu. }
  split; [exact H | apply rows_kept_ledger; exact H].
Qed.

Lemma ledger_invariant_preserved_witness :
  pk_unique (shelf 10 4) /\
  Forall2 row_kept (shelf 10 4)
    (run_calls [(OpReserve, order_body 10 5 6); (OpCommit, order_body 10 5 3);
                (OpRelease, order_body 10 5 100); (OpReserve, order_body 10 5 8)]
               (shelf 10 4)).
Proof.
  assert (Hu : pk_unique (shelf 10 4)) by apply NoDup_singleton.
  split; [exact Hu|].
  apply (ledger_invariant_preserved _ (shelf 10 4) Hu).
Defined.

(** ** Reserving the same record many times (C1) *)



(** *** Racing calls *)

(** Sequential execution is the iteration of [step]. *)
Lemma exec_step {A : Type} (m : Prog A) db :
  result_of (exec m db) = result_of (exec (fst (step m db)) (snd (step m db))) /\
  db_of (exec m db) = db_of (exec (fst (step m db)) (snd (step m db))).
Proof.
  destruct m; cbn [step exec fst snd]; try (split; reflexivity).
  - destruct (exec (k (first_match p s db)) db) as [[? ?] ?]. split; reflexivity.
  - destruct (exec (k (get_pk key db)) db) as [[? ?] ?]. split; reflexivity.
  - destruct (exec m (save_row inv db)) as [[? ?] ?]. split; reflexivity.
Qed.

Lemma save_row_Forall (P : Inventory -> Prop) inv (db : Db) :
  P inv -> Forall P db -> Forall P (save_row inv db).
Proof.
  intros Hi Hall. unfold save_row.
  destruct (existsb (fun r => pk r =? pk inv) db).
  - induction Hall as [|r d Hr _ IH]; cbn [map]; constructor; [|exact IH].
    destruct (pk r =? pk inv); assumption.
  - apply Forall_app. split; [exact Hall | constructor; [exact Hi | constructor]].
Qed.

Lemma step_keeps (P : Inventory -> Prop) {A : Type} (m : Prog A) db :
  Forall P db -> writes_keep P m ->
  Forall P (snd (step m db)) /\ writes_keep P (fst (step m db)).
Proof.
  intros Hall Hm. destruct m; cbn [step fst snd writes_keep] in *.
  - auto.
  - auto.
  - split; [exact Hall|]. apply Hm. intros inv Hf.
    apply first_match_In in Hf. rewrite List.Forall_forall in Hall. auto.
  - split; [exact Hall|]. apply Hm. intros inv Hf.
    apply get_pk_key in Hf as [_ Hin]. rewrite List.Forall_forall in Hall. auto.
  - destruct Hm as [Hi Hk]. split; [|exact Hk]. apply save_row_Forall; assumption.
Qed.

(** Whatever the schedule, the table keeps [P]. *)
Lemma run_schedule_keeps (P : Inventory -> Prop) sched :
  forall pool db,
  Forall P db -> Forall (writes_keep P) pool ->
  Forall P (snd (run_schedule sched pool db)).
Proof.
  induction sched as [|i sched IH]; intros pool db Hdb Hpool; cbn [run_schedule].
  - exact Hdb.
  - destruct (pool !! i) as [m|] eqn:Hi; [|apply IH; assumption].
    pose proof (Forall_lookup_1 _ _ _ _ Hpool Hi) as Hm.
    destruct (step_keeps P m db Hdb Hm) as [Hdb' Hm'].
    destruct (step m db) as [m' db']. cbn [fst snd] in *.
    apply IH; [exact Hdb'|]. apply Forall_insert; assumption.
Qed.


(** The three views write only rows that satisfy the ledger invariant, when
    the rows they read do. *)
Lemma handler_writes_keep_ledger op request :
  writes_keep ledger_ok (handler op request).
Proof.
  destruct (handler_cases op request) as [[e He] | (p & s & q & H)].
  { rewrite He. exact I. }
  assert (Hpos : 0 < q) by (destruct H as (_ & Hpos & _); exact Hpos).
  destruct op; cbn [handler].
  - rewrite (reserve_checked request p s q H). cbn [writes_keep].
    intros [inv|] Hr; [|exact I].
    destruct (available inv <? q) eqn:Ha; cbn [writes_keep]; [exact I|].
    apply Z.ltb_ge in Ha. unfold available in Ha.
    specialize (Hr inv eq_refl). unfold ledger_ok in *. cbn. repeat split; lia.
  - rewrite (release_checked request p s q H). cbn [writes_keep].
    intros [inv|] Hr; [|exact I]. cbn [writes_keep].
    specialize (Hr inv eq_refl). unfold ledger_ok in *. cbn. repeat split; lia.
  - rewrite (commit_checked request p s q H). cbn [writes_keep].
    intros [inv|] Hr; [|exact I].
    destruct (reserved inv <? q) eqn:Ha; cbn [writes_keep]; [exact I|].
    apply Z.ltb_ge in Ha.
    specialize (Hr inv eq_refl). unfold ledger_ok in *. cbn. repeat split; lia.
Qed.

Lemma exec_keeps (P : Inventory -> Prop) {A : Type} (m : Prog A) :
  forall db, Forall P db -> writes_keep P m -> Forall P (db_of (exec m db)).
Proof.
  induction m as [a | e | p s k IH | key k IH | inv k IH]; intros db Hdb Hm.
  - exact Hdb.
  - exact Hdb.
  - destruct (step_keeps P (FilterFirst p s k) db Hdb Hm) as [_ Hk].
    cbn [step fst] in Hk. specialize (IH _ db Hdb Hk).
    cbn [exec]. destruct (exec (k (first_match p s db)) db) as [[? ?] ?]. exact IH.
  - destruct (step_keeps P (GetPk key k) db Hdb Hm) as [_ Hk].
    cbn [step fst] in Hk. specialize (IH _ db Hdb Hk).
    cbn [exec]. destruct (exec (k (get_pk key db)) db) as [[? ?] ?]. exact IH.
  - destruct (step_keeps P (Save inv k) db Hdb Hm) as [Hdb' Hk].
    cbn [step fst snd] in Hdb', Hk. specialize (IH _ Hdb' Hk).
    cbn [exec]. destruct (exec k (save_row inv db)) as [[? ?] ?]. exact IH.
Qed.

(** Served one after the other, the calls keep the invariant of the whole
    table (no assumption on primary keys). *)
Lemma ledger_invariant_table calls :
  forall db, Forall ledger_ok db -> Forall ledger_ok (run_calls calls db).
Proof.
  induction calls as [|[op request] calls IH]; intros db Hdb; cbn [run_calls].
  - exact Hdb.
  - apply IH. apply exec_keeps; [exact Hdb | apply handler_writes_keep_ledger].
Qed.

(** Racing [reserve], [release] and [commit] calls, in any interleaving of
    their database operations, keep the ledger invariant of every row: a
    save writes the whole row, computed from one consistent read. *)
Lemma racing_calls_keep_ledger sched (calls : list (Op * Request)) db :
  Forall ledger_ok db ->
  Forall ledger_ok
    (snd (run_schedule sched (map (fun c => handler (fst c) (snd c)) calls) db)).
Proof.
  intros Hdb. apply run_schedule_keeps; [exact Hdb|].
  apply Forall_forall. intros m Hm. apply list_elem_of_In, in_map_iff in Hm.
  destruct Hm as ([op request] & <- & _). apply handler_writes_keep_ledger.
Qed.







(** The argument check is a hypothesis of C1 for a reason: on the record of
    product 0 at shop 5, with stock 10, no [reserve] call of quantity 1
    addressed with the integer 0 succeeds, where [10 / 1] should. *)
Lemma reserve_on_zero_id_record_is_refused :
  first_match 0 5 [mkInventory 7 0 5 10 0 0 (JObj [])]
    = Some (mkInventory 7 0 5 10 0 0 (JObj [])) /\
  run_seq (List.repeat (reserve (order_body 0 5 1)) 3)
          [mkInventory 7 0 5 10 0 0 (JObj [])] =
  (List.repeat
     (inl (ValidationError "detail" "product_id, shop_id and positive quantity required"))
     3,
   [mkInventory 7 0 5 10 0 0 (JObj [])]).
Proof. split; [reflexivity | vm_compute; reflexivity]. Qed.


(** * Further properties of the views *)

(** ** Calls that are refused, and rows that are not addressed *)

(** A [reserve], [release] or [commit] call that is not answered 200 (it
    raised, or was answered 400) has written nothing: the table is the one
    before the call and no save was performed. *)
Theorem refused_call_leaves_table op request db :
  succeeded (result_of (exec (handler op request) db)) = false ->
  db_of (exec (handler op request) db) = db /\
  existsb is_save (trace_of (exec (handler op request) db)) = false.
Proof.
  destruct (handler_cases op request) as [[e He] | (p & s & q & H)].
  { rewrite He. intros _. split; reflexivity. }
  destruct op; cbn [handler].
  - rewrite (reserve_checked request p s q H). cbn [exec].
    destruct (first_match p s db) as [inv|]; [|intros _; split; reflexivity].
    destruct (available inv <? q); [intros _; split; reflexivity|].
    cbn. discriminate.
  - rewrite (release_checked request p s q H). cbn [exec].
    destruct (first_match p s db) as [inv|]; [|intros _; split; reflexivity].
    cbn. discriminate.
  - rewrite (commit_checked request p s q H). cbn [exec].
    destruct (first_match p s db) as [inv|]; [|intros _; split; reflexivity].
    destruct (reserved inv <? q); [intros _; split; reflexivity|].
    cbn. discriminate.
Qed.

Lemma refused_call_leaves_table_witness :
  succeeded (result_of (exec (handler OpCommit (order_body 10 5 7)) (shelf 10 4))) = false /\
  db_of (exec (handler OpCommit (order_body 10 5 7)) (shelf 10 4)) = shelf 10 4.
Proof.
  assert (H : succeeded (result_of (exec (handler OpCommit (order_body 10 5 7))
                                         (shelf 10 4))) = false)
    by (vm_compute; reflexivity).
  split; [exact H|].
  exact (proj1 (refused_call_leaves_table OpCommit (order_body 10 5 7) (shelf 10 4) H)).
Defined.



Lemma save_row_elsewhere inv inv' (db : Db) :
  In inv db -> pk inv' = pk inv ->
  Forall2 (fun r r' => r' = r \/ (pk r = pk inv /\ r' = inv')) db (save_row inv' db).
Proof.
  intros Hin Hpk. rewrite (save_row_loaded inv inv' db Hin Hpk). clear Hin.
  induction db as [|r db IH]; cbn [map]; constructor; [|exact IH].
  destruct (pk r =? pk inv) eqn:E; [right | left; reflexivity].
  apply Z.eqb_eq in E. auto.
Qed.

Lemma Forall2_same {A : Type} (R : A -> A -> Prop) (l : list A) :
  (forall x, R x x) -> Forall2 R l l.
Proof. intros HR. induction l; constructor; auto. Qed.

(** A call changes at most the row it addresses: every row of the table is
    afterwards the same row, unless the request passes the argument check,
    its pair selects a row, and the row has the primary key of the selected
    one; then it is a row of the same key and pair. *)
Theorem call_changes_only_addressed_row op request db :
  Forall2 (fun r r' =>
             r' = r \/
             exists p s q inv,
               valid_args request p s q /\ first_match p s db = Some inv /\
               pk r = pk inv /\ pk r' = pk inv /\
               product_id r' = p /\ shop_id r' = s)
          db (db_of (exec (handler op request) db)).
Proof.
  destruct (handler_cases op request) as [[e He] | (p & s & q & H)].
  { rewrite He. apply Forall2_same. auto. }
  assert (Hsave : forall inv inv',
            first_match p s db = Some inv -> pk inv' = pk inv ->
            product_id inv' = product_id inv -> shop_id inv' = shop_id inv ->
            Forall2 (fun r r' =>
                       r' = r \/
                       exists p s q inv,
                         valid_args request p s q /\ first_match p s db = Some inv /\
                         pk r = pk inv /\ pk r' = pk inv /\
                         product_id r' = p /\ shop_id r' = s)
                    db (save_row inv' db)).
  { intros inv inv' Hf Hk Hp Hs.
    destruct (first_match_keys p s db inv Hf) as [Hp0 Hs0].
    pose proof (save_row_elsewhere inv inv' db (first_match_In _ _ _ _ Hf) Hk) as HF.
    eapply Forall2_impl; [exact HF|].
    intros r r' [-> | [Hr ->]]; [left; reflexivity | right].
    exists p, s, q, inv.
    split; [exact H | split; [exact Hf | split; [exact Hr | split; [exact Hk |]]]].
    split; congruence. }
  destruct op; cbn [handler].
  - rewrite (reserve_checked request p s q H). cbn [exec].
    destruct (first_match p s db) as [inv|] eqn:Hf; [|apply Forall2_same; auto].
    destruct (available inv <? q); [apply Forall2_same; auto|].
    cbn [exec db_of fst snd]. apply (Hsave inv); reflexivity.
  - rewrite (release_checked request p s q H). cbn [exec].
    destruct (first_match p s db) as [inv|] eqn:Hf; [|apply Forall2_same; auto].
    cbn [exec db_of fst snd]. apply (Hsave inv); reflexivity.
  - rewrite (commit_checked request p s q H). cbn [exec].
    destruct (first_match p s db) as [inv|] eqn:Hf; [|apply Forall2_same; auto].
    destruct (reserved inv <? q); [apply Forall2_same; auto|].
    cbn [exec db_of fst snd]. apply (Hsave inv); reflexivity.
Qed.

(** ** How the calls compose *)

(** [commit] does not change what is available: for a call that passes the
    argument check (truthy identifiers that select the row, quantity
    [q > 0]), on a row with [0 <= reserved <= stock] and [q <= reserved],
    the row after the commit has [stock - q], [reserved - q] and the same
    [available()]. *)
Theorem commit_keeps_available request p s q db inv :
  valid_args request p s q ->
  first_match p s db = Some inv ->
  ledger_ok inv ->
  q <= reserved inv ->
  exists inv',
    first_match p s (db_of (exec (commit request) db)) = Some inv' /\
    available inv' = available inv /\
    stock inv' = stock inv - q /\
    reserved inv' = reserved inv - q.
Proof.
  intros H Hf (Hr0 & Hrs & Hs0) Hle.
  assert (Hpos : 0 < q) by (destruct H as (_ & Hpos & _); exact Hpos).
  destruct (first_match_keys p s db inv Hf) as [Hp Hs].
  rewrite (commit_checked request p s q H). cbn [exec]. rewrite Hf.
  replace (reserved inv <? q) with false by (symmetry; apply Z.ltb_ge; lia).
  cbn [exec db_of fst snd].
  eexists. split; [apply (first_match_save p s inv); auto|].
  unfold available. cbn. repeat split; lia.
Qed.

Lemma commit_keeps_available_witness :
  valid_args (order_body 10 5 3) 10 5 3 /\
  first_match 10 5 (shelf 10 4) = Some (shelf_row 10 4) /\
  ledger_ok (shelf_row 10 4) /\
  3 <= reserved (shelf_row 10 4) /\
  exists inv',
    first_match 10 5 (db_of (exec (commit (order_body 10 5 3)) (shelf 10 4))) = Some inv' /\
    available inv' = 6.
Proof.
  assert (Hv : valid_args (order_body 10 5 3) 10 5 3)
    by (apply order_body_valid; lia).
  assert (Hok : ledger_ok (shelf_row 10 4)) by (unfold ledger_ok; cbn; lia).
  assert (Hle : 3 <= reserved (shelf_row 10 4)) by (cbn; lia).
  split; [exact Hv | split; [reflexivity | split; [exact Hok | split; [exact Hle|]]]].
  destruct (commit_keeps_available (order_body 10 5 3) 10 5 3 (shelf 10 4)
              (shelf_row 10 4) Hv eq_refl Hok Hle) as (inv' & Hf & Ha & _).
  exists inv'. split; [exact Hf | exact Ha].
Defined.

(** [reserve] followed by [commit] of the same request, when the request
    passes the argument check (truthy identifiers that select the row,
    quantity [q > 0]), on a row with [0 <= reserved <= stock] and [q] units
    available: both are answered 200, and the row ends with [stock - q] and
    with [reserved] as before the reserve. *)
Theorem reserve_then_commit request p s q db inv :
  valid_args request p s q ->
  first_match p s db = Some inv ->
  ledger_ok inv ->
  q <= stock inv - reserved inv ->
  let o1 := exec (reserve request) db in
  let o2 := exec (commit request) (db_of o1) in
  succeeded (result_of o1) = true /\
  result_of o2 = inr (mkResponse (serialize (set_stock inv (stock inv - q))) 200) /\
  first_match p s (db_of o2) = Some (set_stock inv (stock inv - q)).
Proof.
  intros H Hf (Hr0 & Hrs & Hs0) Hle o1 o2.
  assert (Hpos : 0 < q) by (destruct H as (_ & Hpos & _); exact Hpos).
  destruct (first_match_keys p s db inv Hf) as [Hp Hs].
  set (held := set_reserved inv (reserved inv + q)).
  assert (E1 : o1 = (inr (mkResponse (serialize held) 200), save_row held db,
                     [EvFilterFirst p s; EvSave held]))
    by (apply reserve_effect; assumption).
  assert (Hf1 : first_match p s (db_of o1) = Some held).
  { rewrite E1. apply (first_match_save p s inv); auto. }
  assert (Hend : set_stock (set_reserved held (reserved held - q))
                           (Z.max (stock held - q) 0)
                 = set_stock inv (stock inv - q)).
  { destruct inv as [k p0 s0 st r t m]. unfold held, set_stock, set_reserved.
    cbn in *. f_equal; lia. }
  split; [rewrite E1; reflexivity|].
  unfold o2. rewrite (commit_checked request p s q H). cbn [exec]. rewrite Hf1.
  replace (reserved held <? q) with false
    by (symmetry; apply Z.ltb_ge; unfold held; cbn; lia).
  cbn [exec db_of result_of fst snd]. rewrite Hend.
  split; [reflexivity|].
  apply (first_match_save p s held); auto.
Qed.

Lemma reserve_then_commit_witness :
  valid_args (order_body 10 5 5) 10 5 5 /\
  first_match 10 5 (shelf 10 2) = Some (shelf_row 10 2) /\
  ledger_ok (shelf_row 10 2) /\
  5 <= stock (shelf_row 10 2) - reserved (shelf_row 10 2) /\
  first_match 10 5
    (db_of (exec (commit (order_body 10 5 5))
                 (db_of (exec (reserve (order_body 10 5 5)) (shelf 10 2)))))
  = Some (shelf_row 5 2).
Proof.
  assert (Hv : valid_args (order_body 10 5 5) 10 5 5)
    by (apply order_body_valid; lia).
  assert (Hok : ledger_ok (shelf_row 10 2)) by (unfold ledger_ok; cbn; lia).
  assert (Hle : 5 <= stock (shelf_row 10 2) - reserved (shelf_row 10 2))
    by (cbn; lia).
  split; [exact Hv | split; [reflexivity | split; [exact Hok | split; [exact Hle|]]]].
  destruct (reserve_then_commit (order_body 10 5 5) 10 5 5 (shelf 10 2)
              (shelf_row 10 2) Hv eq_refl Hok Hle) as (_ & _ & Hrow).
  exact Hrow.
Defined.

(** ** Racing calls and refused quantities *)

Lemma racing_calls_keep_ledger_witness :
  Forall ledger_ok (shelf 10 4) /\
  Forall ledger_ok
    (snd (run_schedule [0; 1; 2; 1; 0; 2; 2]%nat
            (map (fun c => handler (fst c) (snd c))
                 [(OpReserve, order_body 10 5 6); (OpCommit, order_body 10 5 4);
                  (OpRelease, order_body 10 5 1)])
            (shelf 10 4))).
Proof.
  assert (H : Forall ledger_ok (shelf 10 4)).
  { constructor; [unfold ledger_ok; cbn; lia | constructor]. }
  split; [exact H|].
  apply (racing_calls_keep_ledger _ _ (shelf 10 4) H).
Defined.

Lemma non_numeric_quantity_raises_witness :
  quantity_arg (body_with (JInt 10) (JInt 5) (JStr "two")) = inl ValueError /\
  exec (handler OpRelease (body_with (JInt 10) (JInt 5) (JStr "two"))) (shelf 10 4) =
  (inl ValueError, shelf 10 4, []).
Proof.
  assert (H : quantity_arg (body_with (JInt 10) (JInt 5) (JStr "two")) = inl ValueError)
    by (vm_compute; reflexivity).
  split; [exact H|].
  exact (non_numeric_quantity_raises OpRelease _ ValueError (shelf 10 4) H).
Defined.

(** ** The availability endpoint *)

(** [availability] never writes: for every request the table is unchanged,
    no save is performed, and at most one query is made. *)
Theorem availability_is_read_only request db :
  db_of (exec (availability request) db) = db /\
  existsb is_save (trace_of (exec (availability request) db)) = false /\
  (length (trace_of (exec (availability request) db)) <= 1)%nat.
Proof.
  cbv beta delta [availability objects_filter_first] zeta.
  destruct (negb (truthy (params_get (query_params request) "product_id"))
            || negb (truthy (params_get (query_params request) "shop_id"))).
  { cbn. auto. }
  destruct (get_prep_value (params_get (query_params request) "product_id")) as [e|p].
  { cbn. auto. }
  destruct (get_prep_value (params_get (query_params request) "shop_id")) as [e|s].
  { cbn. auto. }
  cbn [lift bind exec].
  destruct (first_match p s db); cbn; auto.
Qed.

(** For a pair without a row, [availability] answers 200 with zeros; it does
    not raise [NotFound]. *)
Theorem availability_of_unknown_pair request p s db :
  get_prep_value (params_get (query_params request) "product_id") = inr p ->
  get_prep_value (params_get (query_params request) "shop_id") = inr s ->
  first_match p s db = None ->
  exec (availability request) db =
  (inr (mkResponse (Availability 0 0 0) 200), db, [EvFilterFirst p s]).
Proof.
  intros Hp Hs Hf.
  cbv beta delta [availability objects_filter_first] zeta.
  rewrite (params_prep_truthy _ _ _ Hp), (params_prep_truthy _ _ _ Hs).
  cbn [negb orb]. rewrite Hp, Hs. cbn [lift bind exec]. rewrite Hf.
  reflexivity.
Qed.

Lemma availability_of_unknown_pair_witness :
  get_prep_value (params_get (query_params (query_of "11" "5")) "product_id") = inr 11 /\
  get_prep_value (params_get (query_params (query_of "11" "5")) "shop_id") = inr 5 /\
  first_match 11 5 (shelf 10 4) = None /\
  exec (availability (query_of "11" "5")) (shelf 10 4) =
  (inr (mkResponse (Availability 0 0 0) 200), shelf 10 4, [EvFilterFirst 11 5]).
Proof.
  assert (Hp : get_prep_value (params_get (query_params (query_of "11" "5")) "product_id")
               = inr 11) by (vm_compute; reflexivity).
  assert (Hs : get_prep_value (params_get (query_params (query_of "11" "5")) "shop_id")
               = inr 5) by (vm_compute; reflexivity).
  split; [exact Hp | split; [exact Hs | split; [reflexivity|]]].
  exact (availability_of_unknown_pair (query_of "11" "5") 11 5 (shelf 10 4) Hp Hs eq_refl).
Defined.

(** A query parameter that is absent or empty makes [availability] raise the
    validation error before any query. *)
Theorem availability_requires_both_params request db :
  query_params request !! "product_id" = None \/
  query_params request !! "product_id" = Some "" \/
  query_params request !! "shop_id" = None \/
  query_params request !! "shop_id" = Some "" ->
  exec (availability request) db =
  (inl (ValidationError "detail" "product_id and shop_id query params required"),
   db, []).
Proof.
  intros H. cbv beta delta [availability] zeta.
  assert (Hc : negb (truthy (params_get (query_params request) "product_id"))
               || negb (truthy (params_get (query_params request) "shop_id")) = true).
  { unfold params_get.
    destruct H as [H | [H | [H | H]]]; rewrite H; cbn;
      try reflexivity; apply orb_true_r. }
  rewrite Hc. reflexivity.
Qed.

Lemma availability_requires_both_params_witness :
  query_params (mkRequest ∅ (<["product_id" := "10"]> ∅)) !! "shop_id" = None /\
  exec (availability (mkRequest ∅ (<["product_id" := "10"]> ∅))) (shelf 10 4) =
  (inl (ValidationError "detail" "product_id and shop_id query params required"),
   shelf 10 4, []).
Proof.
  assert (H : query_params (mkRequest ∅ (<["product_id" := "10"]> ∅)) !! "shop_id" = None)
    by (vm_compute; reflexivity).
  split; [exact H|].
  apply availability_requires_both_params. right. right. left. exact H.
Defined.

(** ** Administrative edits *)

(** The shape of [update_stock] once the row is read. *)
Lemma update_stock_found request key k db inv :
  get_prep_value (JStr key) = inr k ->
  get_pk k db = Some inv ->
  (exists e, exec (update_stock request key) db = (inl e, db, [EvGet k])) \/
  (exists inv',
     exec (update_stock request key) db =
     (inr (mkResponse (serialize inv') 200), save_row inv' db, [EvGet k; EvSave inv']) /\
     pk inv' = pk inv /\ product_id inv' = product_id inv /\
     shop_id inv' = shop_id inv /\ reserved inv' = reserved inv /\
     stock inv' = match data request !! "stock" with
                  | Some v => match py_int v with inr z => z | inl _ => stock inv end
                  | None => stock inv
                  end).
Proof.
  intros Hk Hg.
  cbv beta delta [update_stock get_object_or_404 save] zeta.
  rewrite Hk. cbn [lift bind exec]. rewrite Hg. cbn [bind].
  destruct (data request !! "stock") as [v|].
  - destruct (py_int v) as [e|z].
    + left. destruct e; cbn; eauto.
    + cbn [bind].
      destruct (data request !! "threshold") as [v'|].
      * destruct (py_int v') as [e|t].
        -- left. destruct e; cbn; eauto.
        -- cbn [bind]. right.
           destruct (data request !! "meta"); cbn [exec]; eexists;
             (split; [reflexivity|]); cbn; auto.
      * cbn [bind]. right.
        destruct (data request !! "meta"); cbn [exec]; eexists;
          (split; [reflexivity|]); cbn; auto.
  - cbn [bind].
    destruct (data request !! "threshold") as [v'|].
    + destruct (py_int v') as [e|t].
      * left. destruct e; cbn; eauto.
      * cbn [bind]. right.
        destruct (data request !! "meta"); cbn [exec]; eexists;
          (split; [reflexivity|]); cbn; auto.
    + cbn [bind]. right.
      destruct (data request !! "meta"); cbn [exec]; eexists;
        (split; [reflexivity|]); cbn; auto.
Qed.

Lemma update_stock_cases request key db :
  (exists e, exec (update_stock request key) db = (inl e, db, [])) \/
  (exists k, get_prep_value (JStr key) = inr k /\ get_pk k db = None /\
             exec (update_stock request key) db = (inl Http404, db, [EvGet k])) \/
  (exists k inv, get_prep_value (JStr key) = inr k /\ get_pk k db = Some inv).
Proof.
  destruct (get_prep_value (JStr key)) as [e|k] eqn:Hk.
  - left. exists e. cbv beta delta [update_stock get_object_or_404] zeta.
    rewrite Hk. reflexivity.
  - right. destruct (get_pk k db) as [inv|] eqn:Hg.
    + right. eauto.
    + left. exists k. split; [reflexivity | split; [exact Hg|]].
      cbv beta delta [update_stock get_object_or_404] zeta.
      rewrite Hk. cbn [lift bind exec]. rewrite Hg. reflexivity.
Qed.

(** [update_stock] is all or nothing: when it raises (unknown key, a key or
    a value [int()] refuses), the table is unchanged and nothing was saved. *)
Theorem update_stock_error_leaves_table request key db e :
  result_of (exec (update_stock request key) db) = inl e ->
  db_of (exec (update_stock request key) db) = db /\
  existsb is_save (trace_of (exec (update_stock request key) db)) = false.
Proof.
  intros He.
  destruct (update_stock_cases request key db)
    as [[e' H] | [(k & _ & _ & H) | (k & inv & Hk & Hg)]].
  - rewrite H. split; reflexivity.
  - rewrite H. split; reflexivity.
  - destruct (update_stock_found request key k db inv Hk Hg)
      as [[e' H] | (inv' & H & _)].
    + rewrite H. split; reflexivity.
    + rewrite H in He. discriminate.
Qed.

Lemma update_stock_error_leaves_table_witness :
  result_of (exec (update_stock (stock_edit (JStr "many")) "1") (shelf 10 4))
    = inl (ValidationError "stock" "invalid integer") /\
  db_of (exec (update_stock (stock_edit (JStr "many")) "1") (shelf 10 4)) = shelf 10 4.
Proof.
  assert (H : result_of (exec (update_stock (stock_edit (JStr "many")) "1") (shelf 10 4))
              = inl (ValidationError "stock" "invalid integer"))
    by (vm_compute; reflexivity).
  split; [exact H|].
  exact (proj1 (update_stock_error_leaves_table _ _ _ _ H)).
Defined.

(** The key of the URL: when [int()] reads it as an integer that no row has
    as primary key, [update_stock] raises [Http404], whatever the body,
    after the one query by key; when [int()] refuses it (the key "abc"), the
    exception of [int()] leaves the view and no query is made. *)
Theorem update_stock_unknown_key request key db :
  (forall k, get_prep_value (JStr key) = inr k -> get_pk k db = None ->
     exec (update_stock request key) db = (inl Http404, db, [EvGet k])) /\
  (forall e, get_prep_value (JStr key) = inl e ->
     exec (update_stock request key) db = (inl e, db, [])).
Proof.
  split.
  - intros k Hk Hg. cbv beta delta [update_stock get_object_or_404] zeta.
    rewrite Hk. cbn [lift bind exec]. rewrite Hg. reflexivity.
  - intros e He. cbv beta delta [update_stock get_object_or_404] zeta.
    rewrite He. reflexivity.
Qed.

Lemma update_stock_unknown_key_witness :
  get_prep_value (JStr "2") = inr 2 /\
  get_pk 2 (shelf 10 4) = None /\
  exec (update_stock (stock_edit (JInt 7)) "2") (shelf 10 4) =
  (inl Http404, shelf 10 4, [EvGet 2]) /\
  get_prep_value (JStr "abc") = inl ValueError /\
  exec (update_stock (stock_edit (JInt 7)) "abc") (shelf 10 4) =
  (inl ValueError, shelf 10 4, []).
Proof.
  assert (H2 : get_prep_value (JStr "2") = inr 2) by (vm_compute; reflexivity).
  assert (Ha : get_prep_value (JStr "abc") = inl ValueError) by (vm_compute; reflexivity).
  split; [exact H2 | split; [reflexivity|]].
  split; [|split; [exact Ha|]].
  - exact (proj1 (update_stock_unknown_key (stock_edit (JInt 7)) "2" (shelf 10 4))
                 2 H2 eq_refl).
  - exact (proj2 (update_stock_unknown_key (stock_edit (JInt 7)) "abc" (shelf 10 4))
                 ValueError Ha).
Defined.

(** A "stock" value on which [int()] raises [ValueError] or [TypeError]
    (text that is no number, [null], a list) is answered with the validation
    error of the field, whatever else the body holds; nothing is saved. *)
Theorem update_stock_invalid_stock request key k db inv v :
  get_prep_value (JStr key) = inr k ->
  get_pk k db = Some inv ->
  data request !! "stock" = Some v ->
  py_int v = inl ValueError \/ py_int v = inl TypeError ->
  exec (update_stock request key) db =
  (inl (ValidationError "stock" "invalid integer"), db, [EvGet k]).
Proof.
  intros Hk Hg Hs Hv.
  cbv beta delta [update_stock get_object_or_404] zeta.
  rewrite Hk. cbn [lift bind exec]. rewrite Hg. cbn [bind]. rewrite Hs.
  destruct Hv as [-> | ->]; reflexivity.
Qed.

Lemma update_stock_invalid_stock_witness :
  get_prep_value (JStr "1") = inr 1 /\
  get_pk 1 (shelf 10 4) = Some (shelf_row 10 4) /\
  data (stock_edit JNull) !! "stock" = Some JNull /\
  py_int JNull = inl TypeError /\
  exec (update_stock (stock_edit JNull) "1") (shelf 10 4) =
  (inl (ValidationError "stock" "invalid integer"), shelf 10 4, [EvGet 1]).
Proof.
  split; [vm_compute; reflexivity | split; [reflexivity |
    split; [vm_compute; reflexivity | split; [reflexivity|]]]].
  apply (update_stock_invalid_stock (stock_edit JNull) "1" 1 (shelf 10 4)
           (shelf_row 10 4) JNull).
  - vm_compute; reflexivity.
  - reflexivity.
  - vm_compute; reflexivity.
  - right. reflexivity.
Defined.

(** Over a table with unique primary keys, [update_stock] never changes the
    key, the pair or [reserved] of any row, and changes no row other than
    the one with the key of the URL. *)
Theorem update_stock_touches_one_row request key db :
  pk_unique db ->
  Forall2 (fun r r' =>
             pk r' = pk r /\ product_id r' = product_id r /\
             shop_id r' = shop_id r /\ reserved r' = reserved r /\
             (get_prep_value (JStr key) <> inr (pk r) -> r' = r))
          db (db_of (exec (update_stock request key) db)).
Proof.
  intros Hu.
  assert (Hsame : Forall2 (fun r r' =>
             pk r' = pk r /\ product_id r' = product_id r /\
             shop_id r' = shop_id r /\ reserved r' = reserved r /\
             (get_prep_value (JStr key) <> inr (pk r) -> r' = r)) db db)
    by (apply Forall2_same; intros x; repeat split).
  destruct (update_stock_cases request key db)
    as [[e' H] | [(k & _ & _ & H) | (k & inv & Hk & Hg)]];
    try (rewrite H; exact Hsame).
  destruct (update_stock_found request key k db inv Hk Hg)
    as [[e' H] | (inv' & H & Hpk & Hp & Hs & Hr & _)];
    [rewrite H; exact Hsame|].
  rewrite H. cbn [db_of fst snd].
  destruct (get_pk_key k db inv Hg) as [Hkk Hin].
  pose proof (save_row_elsewhere inv inv' db Hin Hpk) as HF.
  assert (HF' : Forall2 (fun r r' => In r db /\ (r' = r \/ pk r = pk inv /\ r' = inv'))
                        db (save_row inv' db)).
  { clear - HF. revert HF. generalize (save_row inv' db). intros d HF.
    induction HF as [|r r' l l' Hr _ IH]; constructor.
    - split; [left; reflexivity | exact Hr].
    - eapply Forall2_impl; [exact IH|]. cbn. intros x y [Hx Hy].
      split; [right; exact Hx | exact Hy]. }
  eapply Forall2_impl; [exact HF'|].
  intros r r' [Hrin [-> | [Hrk ->]]]; [repeat split|].
  rewrite (pk_unique_In db r inv Hu Hrin Hin Hrk).
  split; [exact Hpk | split; [exact Hp | split; [exact Hs | split; [exact Hr|]]]].
  intros Hne. exfalso. apply Hne. rewrite Hk, Hkk. reflexivity.
Qed.

Lemma update_stock_touches_one_row_witness :
  pk_unique [shelf_row 10 4; mkInventory 2 11 5 3 1 0 (JObj [])] /\
  Forall2 (fun r r' =>
             pk r' = pk r /\ product_id r' = product_id r /\
             shop_id r' = shop_id r /\ reserved r' = reserved r /\
             (get_prep_value (JStr "2") <> inr (pk r) -> r' = r))
          [shelf_row 10 4; mkInventory 2 11 5 3 1 0 (JObj [])]
          (db_of (exec (update_stock (stock_edit (JInt 0)) "2")
                       [shelf_row 10 4; mkInventory 2 11 5 3 1 0 (JObj [])])).
Proof.
  assert (Hu : pk_unique [shelf_row 10 4; mkInventory 2 11 5 3 1 0 (JObj [])]).
  { unfold pk_unique. cbn. apply NoDup_cons_2; [|apply NoDup_singleton].
    intros H. apply list_elem_of_In in H. destruct H as [H | []]. discriminate. }
  split; [exact Hu|].
  apply (update_stock_touches_one_row _ "2" _ Hu).
Defined.

(** With unique primary keys, a body without "stock", "threshold" and "meta"
    makes [update_stock] save the row as it read it: the answer is 200, the
    one save writes back the row that was read, and every column of the
    table is as before (the column [updated_at], which every save
    refreshes, is not among the columns of the embedding). *)
Theorem update_stock_empty_body request key k db inv :
  pk_unique db ->
  get_prep_value (JStr key) = inr k ->
  get_pk k db = Some inv ->
  data request !! "stock" = None ->
  data request !! "threshold" = None ->
  data request !! "meta" = None ->
  exec (update_stock request key) db =
  (inr (mkResponse (serialize inv) 200), db, [EvGet k; EvSave inv]).
Proof.
  intros Hu Hk Hg Hs Ht Hm.
  cbv beta delta [update_stock get_object_or_404 save] zeta.
  rewrite Hk. cbn [lift bind exec]. rewrite Hg. cbn [bind].
  rewrite Hs, Ht, Hm. cbn [bind exec].
  rewrite (save_row_same inv db Hu (proj2 (get_pk_key k db inv Hg))).
  reflexivity.
Qed.

Lemma update_stock_empty_body_witness :
  pk_unique (shelf 10 4) /\
  get_prep_value (JStr "1") = inr 1 /\
  get_pk 1 (shelf 10 4) = Some (shelf_row 10 4) /\
  exec (update_stock (mkRequest ∅ ∅) "1") (shelf 10 4) =
  (inr (mkResponse (serialize (shelf_row 10 4)) 200), shelf 10 4,
   [EvGet 1; EvSave (shelf_row 10 4)]).
Proof.
  assert (Hu : pk_unique (shelf 10 4)) by apply NoDup_singleton.
  split; [exact Hu | split; [vm_compute; reflexivity | split; [reflexivity|]]].
  apply (update_stock_empty_body (mkRequest ∅ ∅) "1" 1 (shelf 10 4) (shelf_row 10 4) Hu);
    try reflexivity; vm_compute; reflexivity.
Defined.

(** ** The list endpoint *)

(** When [get_queryset] returns, it returns exactly the rows of the table
    that every non-empty filter parameter admits: a row is listed if and
    only if it is in the table, its [shop_id] is the one of a non-empty
    "shop_id" parameter, and its [product_id] the one of a non-empty
    "product_id" parameter. *)
Theorem get_queryset_selects request db rows :
  get_queryset request db = inr rows ->
  forall r,
    In r rows <->
    In r db /\
    param_admits (params_get (query_params request) "shop_id") (shop_id r) /\
    param_admits (params_get (query_params request) "product_id") (product_id r).
Proof.
  unfold get_queryset, param_admits.
  set (sv := params_get (query_params request) "shop_id").
  set (pv := params_get (query_params request) "product_id").
  intros H r.
  destruct (truthy sv) eqn:Hts.
  - destruct (get_prep_value sv) as [e|s]; [discriminate|].
    destruct (truthy pv) eqn:Htp.
    + destruct (get_prep_value pv) as [e|p]; [discriminate|].
      injection H as <-. rewrite !filter_In. unfold for_shop, for_product.
      rewrite !Z.eqb_eq. split.
      * intros [[Hin Hs] Hp]. subst. auto.
      * intros (Hin & [Hs | Hs] & [Hp | Hp]); try discriminate.
        injection Hs as <-. injection Hp as <-. auto.
    + injection H as <-. rewrite filter_In. unfold for_shop. rewrite Z.eqb_eq. split.
      * intros [Hin Hs]. subst. auto.
      * intros (Hin & [Hs | Hs] & _); try discriminate.
        injection Hs as <-. auto.
  - destruct (truthy pv) eqn:Htp.
    + destruct (get_prep_value pv) as [e|p]; [discriminate|].
      injection H as <-. rewrite filter_In. unfold for_product. rewrite Z.eqb_eq. split.
      * intros [Hin Hp]. subst. auto.
      * intros (Hin & _ & [Hp | Hp]); try discriminate.
        injection Hp as <-. auto.
    + injection H as <-. split; [auto | tauto].
Qed.

Lemma get_queryset_selects_witness :
  get_queryset (mkRequest ∅ (<["shop_id" := "5"]> ∅))
    [shelf_row 10 4; mkInventory 2 11 6 3 1 0 (JObj []); mkInventory 3 12 5 8 0 0 (JObj [])]
  = inr [shelf_row 10 4; mkInventory 3 12 5 8 0 0 (JObj [])] /\
  (In (mkInventory 3 12 5 8 0 0 (JObj []))
      [shelf_row 10 4; mkInventory 3 12 5 8 0 0 (JObj [])] <->
   In (mkInventory 3 12 5 8 0 0 (JObj []))
      [shelf_row 10 4; mkInventory 2 11 6 3 1 0 (JObj []); mkInventory 3 12 5 8 0 0 (JObj [])] /\
   param_admits (params_get (query_params (mkRequest ∅ (<["shop_id" := "5"]> ∅))) "shop_id") 5 /\
   param_admits (params_get (query_params (mkRequest ∅ (<["shop_id" := "5"]> ∅))) "product_id") 12).
Proof.
  assert (H : get_queryset (mkRequest ∅ (<["shop_id" := "5"]> ∅))
    [shelf_row 10 4; mkInventory 2 11 6 3 1 0 (JObj []); mkInventory 3 12 5 8 0 0 (JObj [])]
  = inr [shelf_row 10 4; mkInventory 3 12 5 8 0 0 (JObj [])])
    by (vm_compute; reflexivity).
  split; [exact H|].
  exact (get_queryset_selects _ _ _ H (mkInventory 3 12 5 8 0 0 (JObj []))).
Defined.

(** Without filter parameters, or with empty ones ([?shop_id=]), the list
    endpoint selects the whole table. *)
Theorem get_queryset_without_filters request db :
  (query_params request !! "shop_id" = None \/
   query_params request !! "shop_id" = Some "") ->
  (query_params request !! "product_id" = None \/
   query_params request !! "product_id" = Some "") ->
  get_queryset request db = inr db.
Proof.
  intros Hs Hp. unfold get_queryset, params_get.
  destruct Hs as [-> | ->]; destruct Hp as [-> | ->]; reflexivity.
Qed.

Lemma get_queryset_without_filters_witness :
  query_params (mkRequest ∅ (<["shop_id" := ""]> ∅)) !! "shop_id" = Some "" /\
  query_params (mkRequest ∅ (<["shop_id" := ""]> ∅)) !! "product_id" = None /\
  get_queryset (mkRequest ∅ (<["shop_id" := ""]> ∅)) (shelf 10 4) = inr (shelf 10 4).
Proof.
  assert (H1 : query_params (mkRequest ∅ (<["shop_id" := ""]> ∅)) !! "shop_id" = Some "")
    by (vm_compute; reflexivity).
  assert (H2 : query_params (mkRequest ∅ (<["shop_id" := ""]> ∅)) !! "product_id" = None)
    by (vm_compute; reflexivity).
  split; [exact H1 | split; [exact H2|]].
  apply get_queryset_without_filters; [right; exact H1 | left; exact H2].
Defined.

(** ** Creating records *)

Lemma next_pk_above (db : Db) r : In r db -> pk r < next_pk db.
Proof.
  unfold next_pk. induction db as [|x db IH]; cbn [In map fold_right]; [tauto|].
  intros [-> | H]; [lia|]. specialize (IH H). lia.
Qed.

Lemma find_none_filter {A : Type} (f : A -> bool) (l : list A) :
  List.find f l = None -> List.filter f l = [].
Proof.
  induction l as [|x l IH]; cbn; [reflexivity|].
  destruct (f x); [discriminate | exact IH].
Qed.

Lemma find_app_last {A : Type} (f : A -> bool) (l : list A) x :
  List.find f l = None -> f x = true -> List.find f (l ++ [x]) = Some x.
Proof.
  induction l as [|y l IH]; cbn; intros Hn Hx.
  - rewrite Hx. reflexivity.
  - destruct (f y); [discriminate | auto].
Qed.

Lemma first_match_none_keys p s (db : Db) :
  first_match p s db = None ->
  ~ In (p, s) (map (fun r => (product_id r, shop_id r)) db).
Proof.
  unfold first_match. intros Hn Hin. apply in_map_iff in Hin as (r & Hk & Hr).
  injection Hk as Hp Hs.
  pose proof (find_none _ _ Hn r Hr) as Hf. cbn in Hf.
  rewrite Hp, Hs, !Z.eqb_refl in Hf. discriminate.
Qed.

Lemma no_row_filter p s (db : Db) :
  first_match p s db = None ->
  List.filter (fun r => for_product p r && for_shop s r) db = [].
Proof. intros H. apply find_none_filter. exact H. Qed.

(** With a unique pair, the rows of a pair are the one row the lookup
    finds. *)
Lemma unique_pair_filter p s (db : Db) row :
  unique_together db ->
  first_match p s db = Some row ->
  List.filter (fun r => for_product p r && for_shop s r) db = [row].
Proof.
  unfold unique_together, first_match, for_product, for_shop.
  induction db as [|r db IH]; cbn [List.find List.filter map]; [discriminate|].
  intros Hnd Hf. apply NoDup_cons in Hnd as [Hni Hnd].
  destruct ((product_id r =? p) && (shop_id r =? s)) eqn:E.
  - injection Hf as ->. f_equal.
    apply andb_true_iff in E as [Hp Hs]. apply Z.eqb_eq in Hp, Hs.
    destruct (List.filter (fun r => (product_id r =? p) && (shop_id r =? s)) db)
      as [|x l] eqn:Hfl; [reflexivity|].
    exfalso. apply Hni.
    assert (Hx : In x (List.filter
                  (fun r => (product_id r =? p) && (shop_id r =? s)) db))
      by (rewrite Hfl; left; reflexivity).
    apply filter_In in Hx as [Hx Hk].
    apply andb_true_iff in Hk as [Hp' Hs']. apply Z.eqb_eq in Hp', Hs'.
    apply list_elem_of_In, in_map_iff. exists x. split; [|exact Hx].
    congruence.
  - apply IH; assumption.
Qed.

Lemma save_row_keys inv inv' (db : Db) :
  pk_unique db -> In inv db -> pk inv' = pk inv ->
  product_id inv' = product_id inv -> shop_id inv' = shop_id inv ->
  map pk (save_row inv' db) = map pk db /\
  map (fun r => (product_id r, shop_id r)) (save_row inv' db)
  = map (fun r => (product_id r, shop_id r)) db.
Proof.
  intros Hu Hin Hk Hp Hs. rewrite (save_row_loaded inv inv' db Hin Hk).
  rewrite !map_map. split; apply map_ext_in; intros r Hr;
    destruct (pk r =? pk inv) eqn:E; try reflexivity;
    apply Z.eqb_eq in E; rewrite (pk_unique_In db r inv Hu Hr Hin E); congruence.
Qed.

(** [create] for a pair that has no row inserts one: the row has the stock,
    threshold and meta sent (0, 0 and an empty object for what was not
    sent), [reserved] 0 and a key no other row has; the rows of the table
    are kept in place, and the pair then finds the new row. *)
Theorem create_inserts_new_pair validated_data db :
  first_match (vd_product_id validated_data) (vd_shop_id validated_data) db = None ->
  exists obj,
    create validated_data db = Upserted obj true (db ++ [obj])%list /\
    product_id obj = vd_product_id validated_data /\
    shop_id obj = vd_shop_id validated_data /\
    stock obj = default 0 (vd_stock validated_data) /\
    threshold obj = default 0 (vd_threshold validated_data) /\
    meta obj = default (JObj []) (vd_meta validated_data) /\
    reserved obj = 0 /\
    (forall r, In r db -> pk r <> pk obj) /\
    first_match (vd_product_id validated_data) (vd_shop_id validated_data)
                (db ++ [obj])%list = Some obj.
Proof.
  intros Hn. unfold create, update_or_create.
  rewrite (no_row_filter _ _ db Hn).
  eexists. split; [reflexivity|]. cbn [product_id shop_id stock threshold meta reserved pk].
  repeat (split; [reflexivity|]). split.
  - intros r Hr. pose proof (next_pk_above db r Hr). lia.
  - unfold first_match. apply find_app_last; [exact Hn|].
    cbn. rewrite !Z.eqb_refl. reflexivity.
Qed.

Lemma create_inserts_new_pair_witness :
  first_match 11 5 (shelf 10 4) = None /\
  create (mkValidatedData 11 5 (Some 7) None None) (shelf 10 4) =
  Upserted (mkInventory 2 11 5 7 0 0 (JObj [])) true
           [shelf_row 10 4; mkInventory 2 11 5 7 0 0 (JObj [])].
Proof.
  split; [reflexivity|].
  destruct (create_inserts_new_pair (mkValidatedData 11 5 (Some 7) None None)
              (shelf 10 4) eq_refl) as (obj & Hc & _).
  rewrite Hc. vm_compute in Hc. injection Hc as <- _. reflexivity.
Defined.

(** [create] for a pair that has a row updates that row in place (the table
    has unique keys and pairs): the row keeps its key, its pair and its
    [reserved]; its stock, threshold and meta become the data sent, and 0, 0
    and an empty object for what was not sent; no row is added. *)
Theorem create_updates_existing_pair validated_data db row :
  pk_unique db ->
  unique_together db ->
  first_match (vd_product_id validated_data) (vd_shop_id validated_data) db = Some row ->
  exists obj,
    create validated_data db = Upserted obj false (save_row obj db) /\
    pk obj = pk row /\
    product_id obj = product_id row /\ shop_id obj = shop_id row /\
    reserved obj = reserved row /\
    stock obj = default 0 (vd_stock validated_data) /\
    threshold obj = default 0 (vd_threshold validated_data) /\
    meta obj = default (JObj []) (vd_meta validated_data) /\
    length (save_row obj db) = length db /\
    first_match (vd_product_id validated_data) (vd_shop_id validated_data)
                (save_row obj db) = Some obj.
Proof.
  intros Hu Hut Hf. unfold create, update_or_create.
  rewrite (unique_pair_filter _ _ db row Hut Hf).
  destruct (first_match_keys _ _ db row Hf) as [Hp Hs].
  eexists. split; [reflexivity|].
  cbn [pk product_id shop_id reserved stock threshold meta set_meta set_threshold set_stock].
  repeat (split; [reflexivity|]). split.
  - match goal with
    | |- length (save_row ?o db) = _ =>
        rewrite (save_row_loaded row o db (first_match_In _ _ _ _ Hf) eq_refl)
    end.
    apply length_map.
  - apply (first_match_save _ _ row); auto.
Qed.

Lemma create_updates_existing_pair_witness :
  pk_unique (shelf 10 4) /\
  unique_together (shelf 10 4) /\
  first_match 10 5 (shelf 10 4) = Some (shelf_row 10 4) /\
  exists obj,
    create (mkValidatedData 10 5 None None None) (shelf 10 4) =
    Upserted obj false (save_row obj (shelf 10 4)) /\
    stock obj = 0 /\ reserved obj = 4.
Proof.
  assert (Hu : pk_unique (shelf 10 4)) by apply NoDup_singleton.
  assert (Hut : unique_together (shelf 10 4)) by apply NoDup_singleton.
  split; [exact Hu | split; [exact Hut | split; [reflexivity|]]].
  destruct (create_updates_existing_pair (mkValidatedData 10 5 None None None)
              (shelf 10 4) (shelf_row 10 4) Hu Hut eq_refl)
    as (obj & Hc & _ & _ & _ & Hr & Hs & _).
  exists obj. split; [exact Hc | split; [exact Hs | exact Hr]].
Defined.

Lemma create_result validated_data db :
  pk_unique db ->
  unique_together db ->
  exists obj created db',
    create validated_data db = Upserted obj created db' /\
    pk_unique db' /\ unique_together db' /\
    first_match (vd_product_id validated_data) (vd_shop_id validated_data) db'
    = Some obj /\
    stock obj = default 0 (vd_stock validated_data) /\
    threshold obj = default 0 (vd_threshold validated_data) /\
    meta obj = default (JObj []) (vd_meta validated_data).
Proof.
  intros Hu Hut.
  destruct (first_match (vd_product_id validated_data) (vd_shop_id validated_data) db)
    as [row|] eqn:Hf.
  - destruct (first_match_keys _ _ db row Hf) as [Hp Hs].
    unfold create, update_or_create.
    rewrite (unique_pair_filter _ _ db row Hut Hf).
    eexists. exists false. eexists. split; [reflexivity|].
    destruct (save_row_keys row
                (set_meta (set_threshold (set_stock row (default 0 (vd_stock validated_data)))
                             (default 0 (vd_threshold validated_data)))
                          (default (JObj []) (vd_meta validated_data)))
                db Hu (first_match_In _ _ _ _ Hf) eq_refl eq_refl eq_refl) as [Hk1 Hk2].
    unfold pk_unique, unique_together. rewrite Hk1, Hk2.
    split; [exact Hu | split; [exact Hut|]].
    split; [apply (first_match_save _ _ row); auto|].
    cbn. auto.
  - pose proof (first_match_none_keys _ _ db Hf) as Hnk.
    unfold create, update_or_create.
    rewrite (no_row_filter _ _ db Hf).
    eexists. exists true. eexists. split; [reflexivity|].
    unfold pk_unique, unique_together. rewrite !map_app. cbn [map pk product_id shop_id].
    split; [|split; [|split]].
    + apply NoDup_app. split; [exact Hu|]. split; [|apply NoDup_singleton].
      intros x Hx Hx'. apply list_elem_of_In in Hx. apply in_map_iff in Hx as (r & <- & Hr).
      apply list_elem_of_In in Hx'. destruct Hx' as [Hx' | []].
      pose proof (next_pk_above db r Hr). lia.
    + apply NoDup_app. split; [exact Hut|]. split; [|apply NoDup_singleton].
      intros x Hx Hx'. apply list_elem_of_In in Hx'. destruct Hx' as [<- | []].
      apply list_elem_of_In in Hx. exact (Hnk Hx).
    + unfold first_match. apply find_app_last; [exact Hf|].
      cbn. rewrite !Z.eqb_refl. reflexivity.
    + cbn. auto.
Qed.

(** Over a table with unique keys and unique pairs, [create] always returns
    an object (it never meets several rows for the pair), the table keeps
    unique keys and unique pairs, and the pair finds the returned object. *)
Theorem create_keeps_uniqueness validated_data db :
  pk_unique db ->
  unique_together db ->
  exists obj created db',
    create validated_data db = Upserted obj created db' /\
    pk_unique db' /\ unique_together db' /\
    first_match (vd_product_id validated_data) (vd_shop_id validated_data) db'
    = Some obj.
Proof.
  intros Hu Hut.
  destruct (create_result validated_data db Hu Hut)
    as (obj & c & db' & Hc & H1 & H2 & H3 & _).
  exists obj, c, db'. auto.
Qed.

Lemma create_keeps_uniqueness_witness :
  pk_unique (shelf 10 4) /\
  unique_together (shelf 10 4) /\
  exists obj created db',
    create (mkValidatedData 11 5 (Some 7) None None) (shelf 10 4)
    = Upserted obj created db' /\
    pk_unique db' /\ unique_together db'.
Proof.
  assert (Hu : pk_unique (shelf 10 4)) by apply NoDup_singleton.
  assert (Hut : unique_together (shelf 10 4)) by apply NoDup_singleton.
  split; [exact Hu | split; [exact Hut|]].
  destruct (create_keeps_uniqueness (mkValidatedData 11 5 (Some 7) None None)
              (shelf 10 4) Hu Hut) as (obj & c & db' & Hc & H1 & H2 & _).
  exists obj, c, db'. split; [exact Hc | split; [exact H1 | exact H2]].
Defined.

(** Creating twice with the same data is creating once: the second [create]
    finds the object of the first, returns it as not created, adds no row,
    and leaves every column of the table as the first left it (the column
    [updated_at], which the save of the second refreshes, is not among the
    columns of the embedding). *)
Theorem create_is_idempotent validated_data db obj created db' :
  pk_unique db ->
  unique_together db ->
  create validated_data db = Upserted obj created db' ->
  create validated_data db' = Upserted obj false db'.
Proof.
  intros Hu Hut Hc.
  destruct (create_result validated_data db Hu Hut)
    as (obj0 & c0 & db0 & Hc0 & Hu' & Hut' & Hf' & Hst & Hth & Hme).
  rewrite Hc in Hc0. injection Hc0 as <- <- <-.
  unfold create, update_or_create.
  rewrite (unique_pair_filter _ _ db' obj Hut' Hf').
  assert (Hsame : set_meta (set_threshold (set_stock obj (default 0 (vd_stock validated_data)))
                              (default 0 (vd_threshold validated_data)))
                           (default (JObj []) (vd_meta validated_data)) = obj).
  { destruct obj as [k p s st r t m]. cbn in *. subst. reflexivity. }
  rewrite Hsame.
  rewrite (save_row_same obj db' Hu' (first_match_In _ _ _ _ Hf')).
  reflexivity.
Qed.

Lemma create_is_idempotent_witness :
  pk_unique (shelf 10 4) /\
  unique_together (shelf 10 4) /\
  create (mkValidatedData 11 5 (Some 7) None None) (shelf 10 4) =
  Upserted (mkInventory 2 11 5 7 0 0 (JObj [])) true
           [shelf_row 10 4; mkInventory 2 11 5 7 0 0 (JObj [])] /\
  create (mkValidatedData 11 5 (Some 7) None None)
         [shelf_row 10 4; mkInventory 2 11 5 7 0 0 (JObj [])] =
  Upserted (mkInventory 2 11 5 7 0 0 (JObj [])) false
           [shelf_row 10 4; mkInventory 2 11 5 7 0 0 (JObj [])].
Proof.
  assert (Hu : pk_unique (shelf 10 4)) by apply NoDup_singleton.
  assert (Hut : unique_together (shelf 10 4)) by apply NoDup_singleton.
  assert (Hc : create (mkValidatedData 11 5 (Some 7) None None) (shelf 10 4) =
               Upserted (mkInventory 2 11 5 7 0 0 (JObj [])) true
                        [shelf_row 10 4; mkInventory 2 11 5 7 0 0 (JObj [])])
    by (vm_compute; reflexivity).
  split; [exact Hu | split; [exact Hut | split; [exact Hc|]]].
  exact (create_is_idempotent _ _ _ _ _ Hu Hut Hc).
Defined.

(** ** Validation of the product *)

(** [validate_product_id] accepts a product exactly when the check is
    switched off or the product service answered 200.  With the check on,
    any other status raises the validation error "Product N not found in
    ProductService" and a failed request raises the validation error "Could
    not validate product with ProductService (unavailable)": the product is
    refused, not let through. *)
Theorem validate_product_id_accepts validate service value :
  (forall v, validate_product_id validate service value = inr v <->
     v = value /\
     (validate = false \/ exists payload, service value = HttpStatus 200 payload)) /\
  (validate = true ->
   forall code payload, service value = HttpStatus code payload -> code <> 200 ->
     validate_product_id validate service value =
     inl (ValidationError "product_id"
            ("Product " ++ py_str value ++ " not found in ProductService"))) /\
  (validate = true ->
   service value = RequestException ->
     validate_product_id validate service value =
     inl (ValidationError "product_id"
            "Could not validate product with ProductService (unavailable)")).
Proof.
  unfold validate_product_id. split; [|split].
  - intros v. destruct validate; cbn [negb].
    + destruct (service value) as [code payload|].
      * destruct (Z.eqb_spec code 200) as [-> | Hne]; cbn [negb].
        -- split; [intros [= <-]; eauto | intros [-> _]; reflexivity].
        -- split; [discriminate|].
           intros [_ [H | [pl H]]]; [discriminate | congruence].
      * split; [discriminate|].
        intros [_ [H | [pl H]]]; discriminate.
    + split; [intros [= <-]; auto | intros [-> _]; reflexivity].
  - intros -> code payload -> Hne. cbn [negb].
    destruct (Z.eqb_spec code 200); [contradiction | reflexivity].
  - intros -> ->. reflexivity.
Qed.

Lemma validate_product_id_accepts_witness :
  validate_product_id true (fun _ => HttpStatus 404 JNull) 12 =
  inl (ValidationError "product_id" "Product 12 not found in ProductService") /\
  validate_product_id true (fun _ => RequestException) 12 =
  inl (ValidationError "product_id"
         "Could not validate product with ProductService (unavailable)").
Proof.
  destruct (validate_product_id_accepts true (fun _ => HttpStatus 404 JNull) 12)
    as (_ & H1 & _).
  destruct (validate_product_id_accepts true (fun _ => RequestException) 12)
    as (_ & _ & H2).
  split.
  - exact (H1 eq_refl 404 JNull eq_refl ltac:(discriminate)).
  - exact (H2 eq_refl eq_refl).
Defined.

(** ** Permissions *)

Lemma order_action_cases action :
  In action ["reserve"; "release"; "commit"] ->
  existsb (String.eqb action) ["reserve"; "release"; "commit"] = true.
Proof.
  intros H. apply existsb_exists. exists action. split; [exact H|].
  apply String.eqb_refl.
Qed.

(** The actions [reserve], [release] and [commit] are open to every
    authenticated caller, whatever the role and the HTTP method, and to
    nobody else. *)
Theorem order_actions_need_authentication action request :
  In action ["reserve"; "release"; "commit"] ->
  check_permissions action request = authenticated request.
Proof.
  intros H. unfold check_permissions, get_permissions.
  rewrite (order_action_cases action H). cbn [forallb permission_granted].
  apply andb_true_r.
Qed.

Lemma order_actions_need_authentication_witness :
  In "reserve" ["reserve"; "release"; "commit"] /\
  check_permissions "reserve"
    (mkCaller "POST" (Some (mkUser (JInt 3) "customer" true JNull)) None) = true.
Proof.
  assert (H : In "reserve" ["reserve"; "release"; "commit"]) by (left; reflexivity).
  split; [exact H|].
  rewrite (order_actions_need_authentication "reserve" _ H). reflexivity.
Defined.

(** For every other action ([update_stock], create, update, delete, list,
    retrieve, availability) the check is [IsShopOwnerOrReadOnly] alone: safe
    methods pass for anyone, the others only for an authenticated caller of
    role "shop_owner"; the class-level [IsAuthenticatedOrReadOnly] refuses
    nothing more. *)
Theorem other_actions_need_shop_owner action request :
  ~ In action ["reserve"; "release"; "commit"] ->
  check_permissions action request = has_permission request /\
  (has_permission request = true <->
   is_safe (method request) = true \/
   exists u, user request = Some u /\ is_authenticated u = true /\
             role u = "shop_owner").
Proof.
  intros Hn. split.
  - unfold check_permissions, get_permissions.
    destruct (existsb (String.eqb action) ["reserve"; "release"; "commit"]) eqn:E.
    { exfalso. apply Hn. apply existsb_exists in E as (x & Hx & Hex).
      apply String.eqb_eq in Hex. subst. exact Hx. }
    destruct (String.eqb action "update_stock");
      cbn [forallb permission_granted]; [apply andb_true_r|].
    rewrite andb_true_r. unfold has_permission, authenticated.
    destruct (is_safe (method request)); [reflexivity|]. cbn [orb andb].
    destruct (user request) as [u|]; [|reflexivity].
    destruct (is_authenticated u); reflexivity.
  - unfold has_permission.
    destruct (is_safe (method request)); [split; auto|].
    destruct (user request) as [u|].
    + destruct (is_authenticated u) eqn:Ha; cbn [negb].
      * rewrite String.eqb_eq. split.
        -- intros Hr. right. exists u. auto.
        -- intros [H | (u' & [= <-] & _ & Hr)]; [discriminate | exact Hr].
      * split; [discriminate|].
        intros [H | (u' & [= <-] & Ha' & _)]; [discriminate | congruence].
    + split; [discriminate|].
      intros [H | (u' & H & _)]; discriminate.
Qed.

Lemma other_actions_need_shop_owner_witness :
  ~ In "update_stock" ["reserve"; "release"; "commit"] /\
  check_permissions "update_stock"
    (mkCaller "PATCH" (Some (mkUser (JInt 3) "customer" true JNull)) None) = false.
Proof.
  assert (H : ~ In "update_stock" ["reserve"; "release"; "commit"]).
  { intros [H | [H | [H | []]]]; discriminate. }
  split; [exact H|].
  rewrite (proj1 (other_actions_need_shop_owner "update_stock" _ H)). reflexivity.
Defined.

Lemma truthy_or_null v : truthy (py_or v JNull) = truthy v.
Proof. unfold py_or. destruct (truthy v) eqn:E; [exact E | reflexivity]. Qed.

Lemma py_or_null_truthy v : truthy v = true -> py_or v JNull = v.
Proof. unfold py_or. intros ->. reflexivity. Qed.

Lemma ints_of_ints zs : ints_of (map JInt zs) = inr zs.
Proof. induction zs as [|z zs IH]; cbn; [reflexivity|]. rewrite IH. reflexivity. Qed.

(** When the user of the token carries a non-empty list of shop identifiers,
    the object permission on an unsafe method is membership of the shop of
    the record in that list; the shop service is not consulted, whatever it
    would answer. *)
Theorem token_shop_ids_decide service request u obj zs :
  is_safe (method request) = false ->
  user request = Some u ->
  is_authenticated u = true ->
  role u = "shop_owner" ->
  shop_ids u = JArr (map JInt zs) ->
  zs <> [] ->
  has_object_permission service request obj
  = inr (existsb (Z.eqb (shop_id obj)) zs).
Proof.
  intros Hsafe Hu Ha Hr Hids Hne. unfold has_object_permission.
  rewrite Hsafe, Hu, Ha, Hr, String.eqb_refl. cbn [negb].
  assert (Ht : truthy (shop_ids u) = true).
  { rewrite Hids. destruct zs; [congruence | reflexivity]. }
  rewrite truthy_or_null, Ht. rewrite (py_or_null_truthy _ Ht), Hids.
  cbn [iterate]. rewrite ints_of_ints. reflexivity.
Qed.

Lemma token_shop_ids_decide_witness :
  has_object_permission (fun _ _ => RequestException)
    (mkCaller "PATCH" (Some (mkUser (JInt 3) "shop_owner" true (JArr (map JInt [4; 5])))) None)
    (shelf_row 10 4) = inr true.
Proof.
  rewrite (token_shop_ids_decide (fun _ _ => RequestException)
             (mkCaller "PATCH"
                (Some (mkUser (JInt 3) "shop_owner" true (JArr (map JInt [4; 5])))) None)
             (mkUser (JInt 3) "shop_owner" true (JArr (map JInt [4; 5])))
             (shelf_row 10 4) [4; 5]);
    try reflexivity.
  discriminate.
Defined.



(** When the token carries no shop identifiers, an unsafe method of an
    authenticated shop owner is decided by the shop service, asked with the
    bearer token when there is a non-empty one; unless the service answers
    200 the method is never granted: a 404 is the refusal [False], any other
    status raises [PermissionDenied] "Could not fetch shop from
    ShopService", and a failed request raises [PermissionDenied]
    "ShopService unavailable". *)
Theorem shop_service_failure_denies service request u obj :
  is_safe (method request) = false ->
  user request = Some u ->
  is_authenticated u = true ->
  role u = "shop_owner" ->
  truthy (shop_ids u) = false ->
  let headers := match auth request with
                 | Some t => if String.eqb t "" then None else Some t
                 | None => None
                 end in
  (forall payload, service (shop_id obj) headers = HttpStatus 404 payload ->
     has_object_permission service request obj = inr false) /\
  (forall code payload, service (shop_id obj) headers = HttpStatus code payload ->
     code <> 200 -> code <> 404 ->
     has_object_permission service request obj =
     inl (PermissionDenied "Could not fetch shop from ShopService")) /\
  (service (shop_id obj) headers = RequestException ->
     has_object_permission service request obj =
     inl (PermissionDenied "ShopService unavailable")).
Proof.
  intros Hsafe Hu Ha Hr Ht headers. unfold has_object_permission.
  rewrite Hsafe, Hu, Ha, Hr, String.eqb_refl. cbn [negb].
  rewrite truthy_or_null, Ht. unfold _fetch_shop. fold headers.
  split; [|split].
  - intros payload ->. reflexivity.
  - intros code payload -> H200 H404.
    destruct (Z.eqb_spec code 200); [contradiction|].
    destruct (Z.eqb_spec code 404); [contradiction | reflexivity].
  - intros ->. reflexivity.
Qed.

Lemma shop_service_failure_denies_witness :
  has_object_permission (fun _ _ => HttpStatus 404 JNull)
    (mkCaller "PATCH" (Some (mkUser (JInt 3) "shop_owner" true JNull)) None)
    (shelf_row 10 4) = inr false /\
  has_object_permission (fun _ _ => HttpStatus 500 JNull)
    (mkCaller "PATCH" (Some (mkUser (JInt 3) "shop_owner" true JNull)) None)
    (shelf_row 10 4) = inl (PermissionDenied "Could not fetch shop from ShopService") /\
  has_object_permission (fun _ _ => RequestException)
    (mkCaller "PATCH" (Some (mkUser (JInt 3) "shop_owner" true JNull)) None)
    (shelf_row 10 4) = inl (PermissionDenied "ShopService unavailable").
Proof.
  destruct (shop_service_failure_denies (fun _ _ => HttpStatus 404 JNull)
              (mkCaller "PATCH" (Some (mkUser (JInt 3) "shop_owner" true JNull)) None)
              (mkUser (JInt 3) "shop_owner" true JNull) (shelf_row 10 4)
              eq_refl eq_refl eq_refl eq_refl eq_refl) as (H1 & _ & _).
  destruct (shop_service_failure_denies (fun _ _ => HttpStatus 500 JNull)
              (mkCaller "PATCH" (Some (mkUser (JInt 3) "shop_owner" true JNull)) None)
              (mkUser (JInt 3) "shop_owner" true JNull) (shelf_row 10 4)
              eq_refl eq_refl eq_refl eq_refl eq_refl) as (_ & H2 & _).
  destruct (shop_service_failure_denies (fun _ _ => RequestException)
              (mkCaller "PATCH" (Some (mkUser (JInt 3) "shop_owner" true JNull)) None)
              (mkUser (JInt 3) "shop_owner" true JNull) (shelf_row 10 4)
              eq_refl eq_refl eq_refl eq_refl eq_refl) as (_ & _ & H3).
  split; [exact (H1 JNull eq_refl) | split; [|exact (H3 eq_refl)]].
  exact (H2 500 JNull eq_refl ltac:(discriminate) ltac:(discriminate)).
Defined.
